(** * web-router: a shallow embedding of [src/web-router.ts]

    The [Router] class maps URL paths to application-defined renderers on
    top of the browser's Navigation API.  The embedding keeps the shape of
    the class: its five private fields are a record, every method is a
    function on an explicit state (the router, the part of [window] and
    [document] the router touches, and the log of what it made observable),
    and the capabilities of the browser the class only calls (URLPattern,
    the URL parser, the view-transition request, the outcome of
    [navigation.navigate]) are parameters.

    Asynchrony.  Every [await] of the source is a point where the model
    takes the settled result of the awaited promise and goes on; a hook is
    therefore a function of the application state that returns how its
    promise settled.  Hooks and transitions that never settle are outside
    the model.

    The browser is taken as the source takes it: [window.navigation]
    exists.  [Router.init] is the call of [init()] in which no pattern
    constructor throws; [Router.initOrThrow] is the call with the
    constructor's [TypeError]. *)

From Stdlib Require Import List String Ascii Bool.
Import ListNotations.
Open Scope string_scope.
Open Scope list_scope.

Set Implicit Arguments.

(** ** JavaScript values the class relies on *)

(** [T | null].  The union is untagged in TypeScript: a [T] that itself
    admits [null] collapses into it, which is why a render function typed
    [() => TRender] with the default [TRender = unknown] gets [Nullable]
    below. *)
Definition Nullable (T : Type) : Type := option T.

Definition null {T : Type} : Nullable T := None.

(** How an awaited promise settles (a synchronous [throw] inside an awaited
    call counts as a rejection, as in a [try { await f() } catch]). *)
Inductive Settled (Failure : Type) : Type :=
| Fulfilled : Settled Failure
| Rejected : Failure -> Settled Failure.

Arguments Fulfilled {Failure}.
Arguments Rejected {Failure} _.

(** JavaScript truthiness of a string: only the empty string is falsy. *)
Definition truthy_string (s : string) : bool :=
  match s with
  | EmptyString => false
  | String _ _ => true
  end.

(** Truthiness of [string | null] and of [object | null]. *)
Definition truthy_nullable_string (s : Nullable string) : bool :=
  match s with
  | None => false
  | Some s' => truthy_string s'
  end.

Definition truthy_object {T : Type} (o : Nullable T) : bool :=
  match o with
  | None => false
  | Some _ => true
  end.

(** The three components of a parsed [URL] the router reads. *)
Record URL : Type := mkURL {
  href : string;
  origin : string;
  pathname : string
}.

(** A [URLPattern] built by [new URLPattern({ pathname })].  Two patterns
    built from the same string are still two objects, so the pattern table
    (a [Map] keyed by the object) never overwrites an entry. *)
Record URLPattern : Type := mkURLPattern {
  pattern_pathname : string
}.

(** The browser capabilities the class treats as black boxes.
    [URLPattern_test p s] is [p.test({ pathname: s })];
    [URL_new s base] is [new URL(s, base)], [None] when it throws. *)
Class Platform : Type := {
  URLPattern_test : URLPattern -> string -> bool;
  URL_new : string -> string -> option URL
}.

(** The pattern syntax: [URLPattern_accepts s] tells whether
    [new URLPattern({ pathname: s })] returns a pattern; it throws a
    [TypeError] otherwise. *)
Class PatternSyntax : Type := {
  URLPattern_accepts : string -> bool
}.

(** ** Plugins, routes and options (the exported interfaces) *)

Module RouterPlugin.
Section Def.
Variables World Failure : Type.

(** [beforeNavigation?: () => void | Promise<unknown>]: when present, a
    hook acts on the application state and settles. *)
Record t : Type := mk {
  name : option string;
  beforeNavigation : option (World -> Settled Failure * World)
}.

End Def.
End RouterPlugin.

(** [lazy(importFn)] of [plugins/lazy.ts]. *)
Definition lazy {World Failure : Type}
  (importFn : World -> Settled Failure * World) : RouterPlugin.t World Failure :=
  RouterPlugin.mk (Some "lazy") (Some importFn).

Module Route.
Section Def.
Variables TRender World Failure : Type.

Record t : Type := mk {
  path : string;
  title : string;
  render : unit -> Nullable TRender;
  plugins : option (list (RouterPlugin.t World Failure))
}.

End Def.
End Route.

Module RouterOptions.
Section Def.
Variables TRender World Failure : Type.

Record t : Type := mk {
  routes : list (Route.t TRender World Failure);
  plugins : option (list (RouterPlugin.t World Failure))
}.

End Def.
End RouterOptions.

(** ** What the router makes observable *)

Section Observations.
Variables TRender World Failure : Type.

(** The two [CustomEvent]s the router dispatches on itself, with their
    [detail]. *)
Inductive CustomEvent : Type :=
| ErrorEvent (error : Failure) (plugin : RouterPlugin.t World Failure)
    (route : Route.t TRender World Failure)
| RouteChanged (route : Route.t TRender World Failure).

(** The log: a hook being called, the awaited hook settling, and an event
    dispatched on the router, in program order. *)
Inductive Observation : Type :=
| HookStarted (plugin : RouterPlugin.t World Failure)
| HookSettled (plugin : RouterPlugin.t World Failure) (result : Settled Failure)
| Dispatched (event : CustomEvent).

End Observations.

Arguments RouteChanged {TRender World Failure} route.
Arguments HookStarted {TRender World Failure} plugin.
Arguments HookSettled {TRender World Failure} plugin result.

(** ** The environment: [window], [document], [console] *)

(** What [document.startViewTransition(updateDOM)] followed by
    [await transition.finished] can do.  The capability calls the update
    callback itself; when the request throws or [finished] rejects, the
    [catch] cannot tell whether the callback had already run. *)
Inductive ViewTransition : Type :=
| TransitionFinished
| TransitionFailed (callbackRan : bool).

Inductive HistoryBehavior : Type := push | replace | auto.

(** The arguments of one [window.navigation.navigate(url, options)]. *)
Record NavigateCall (NavState : Type) : Type := mkNavigateCall {
  call_url : string;
  call_history : HistoryBehavior;
  call_info_viewTransition : bool;
  call_state : option NavState
}.

(** A [NavigateEvent] as the listener reads it.  [destination] is
    [new URL(event.destination.url)], which is an absolute URL and always
    parses.  [downloadRequest] is [string | null] (the requested file name);
    [formData] is [FormData | null]. *)
Record NavigateEvent : Type := mkNavigateEvent {
  destination : URL;
  downloadRequest : Nullable string;
  formData : Nullable (list (string * string));
  canIntercept : bool
}.

Module Window.
Section Def.
Variables World Failure NavState : Type.

Record t : Type := mk {
  location_origin : string;
  location_pathname : string;
  document_title : string;
  (** ['startViewTransition' in document], and what a request does. *)
  startViewTransition : option ViewTransition;
  (** Listeners added with [window.navigation.addEventListener('navigate')]
      and [window.addEventListener('popstate')]. *)
  navigateListeners : nat;
  popstateListeners : nat;
  (** Calls of [window.navigation.navigate], oldest first, and how the
      [finished] promise of a call settles. *)
  navigateCalls : list (NavigateCall NavState);
  navigationFinished : NavigateCall NavState -> Settled Failure;
  (** [window.navigation?.currentEntry?.getState()], [None] for
      [undefined]. *)
  currentEntryState : option NavState;
  (** Calls of [console.warn]. *)
  warnings : nat;
  (** The rest of the application, on which plugin hooks act. *)
  app : World
}.

End Def.
End Window.

(** ** The [Router] class *)

Module Router.
Section Def.
Context {TRender World Failure NavState : Type} {platform : Platform}
  {syntax : PatternSyntax}.

Local Abbreviation Plugin := (RouterPlugin.t World Failure).
Local Abbreviation RouteT := (Route.t TRender World Failure).
Local Abbreviation Options := (RouterOptions.t TRender World Failure).
Local Abbreviation Win := (Window.t World Failure NavState).
Local Abbreviation Obs := (Observation TRender World Failure).

(** The private fields.  [patterns] is the [Map<URLPattern, Route>] in
    insertion order. *)
Record t : Type := mk {
  routes : list RouteT;
  patterns : list (URLPattern * RouteT);
  currentRoute : Nullable RouteT;
  initialized : bool;
  plugins : list Plugin
}.

(** A router in its environment, with the log of what it has made
    observable so far. *)
Record State : Type := mkState {
  this : t;
  window : Win;
  log : list Obs
}.

(** *** Field updates *)

Definition set_patterns (ps : list (URLPattern * RouteT)) (r : t) : t :=
  mk (routes r) ps (currentRoute r) (initialized r) (plugins r).

Definition set_currentRoute (c : Nullable RouteT) (r : t) : t :=
  mk (routes r) (patterns r) c (initialized r) (plugins r).

Definition set_initialized (b : bool) (r : t) : t :=
  mk (routes r) (patterns r) (currentRoute r) b (plugins r).

Definition with_this (f : t -> t) (st : State) : State :=
  mkState (f (this st)) (window st) (log st).

Definition with_window (f : Win -> Win) (st : State) : State :=
  mkState (this st) (f (window st)) (log st).

Definition observe (o : Obs) (st : State) : State :=
  mkState (this st) (window st) (log st ++ [o]).

Definition set_title (s : string) (w : Win) : Win :=
  Window.mk (Window.location_origin w) (Window.location_pathname w) s
    (Window.startViewTransition w) (Window.navigateListeners w)
    (Window.popstateListeners w) (Window.navigateCalls w)
    (Window.navigationFinished w) (Window.currentEntryState w)
    (Window.warnings w) (Window.app w).

Definition set_app (a : World) (w : Win) : Win :=
  Window.mk (Window.location_origin w) (Window.location_pathname w)
    (Window.document_title w) (Window.startViewTransition w)
    (Window.navigateListeners w) (Window.popstateListeners w)
    (Window.navigateCalls w) (Window.navigationFinished w)
    (Window.currentEntryState w) (Window.warnings w) a.

Definition console_warn (w : Win) : Win :=
  Window.mk (Window.location_origin w) (Window.location_pathname w)
    (Window.document_title w) (Window.startViewTransition w)
    (Window.navigateListeners w) (Window.popstateListeners w)
    (Window.navigateCalls w) (Window.navigationFinished w)
    (Window.currentEntryState w) (S (Window.warnings w)) (Window.app w).

Definition add_navigate_listener (w : Win) : Win :=
  Window.mk (Window.location_origin w) (Window.location_pathname w)
    (Window.document_title w) (Window.startViewTransition w)
    (S (Window.navigateListeners w)) (Window.popstateListeners w)
    (Window.navigateCalls w) (Window.navigationFinished w)
    (Window.currentEntryState w) (Window.warnings w) (Window.app w).

Definition add_popstate_listener (w : Win) : Win :=
  Window.mk (Window.location_origin w) (Window.location_pathname w)
    (Window.document_title w) (Window.startViewTransition w)
    (Window.navigateListeners w) (S (Window.popstateListeners w))
    (Window.navigateCalls w) (Window.navigationFinished w)
    (Window.currentEntryState w) (Window.warnings w) (Window.app w).

Definition push_navigate_call (c : NavigateCall NavState) (w : Win) : Win :=
  Window.mk (Window.location_origin w) (Window.location_pathname w)
    (Window.document_title w) (Window.startViewTransition w)
    (Window.navigateListeners w) (Window.popstateListeners w)
    (Window.navigateCalls w ++ [c]) (Window.navigationFinished w)
    (Window.currentEntryState w) (Window.warnings w) (Window.app w).

(** *** [constructor(options)] *)

Definition new (options : Options) : t :=
  mk (RouterOptions.routes options) [] null false
    (match RouterOptions.plugins options with
     | Some ps => ps
     | None => []
     end).

(** [new Router(options)] evaluated in an environment: the fields are
    stored, nothing else happens. *)
Definition construct (options : Options) (w : Win) : State :=
  mkState (new options) w [].

(** *** [matchRoute(pathname)] *)

(** The [for ... of this.patterns] loop with its early [return]. *)
Fixpoint matchEntries (entries : list (URLPattern * RouteT)) (path : string)
  : Nullable RouteT :=
  match entries with
  | [] => null
  | (pattern, route) :: rest =>
      if URLPattern_test pattern path then Some route
      else matchEntries rest path
  end.

Definition matchRoute (r : t) (path : string) : Nullable RouteT :=
  matchEntries (patterns r) path.

(** *** [handleNavigation(route, options?)] *)

Record HandleOptions : Type := mkHandleOptions {
  skipViewTransition : option bool
}.

(** [this.dispatchEvent(new CustomEvent(...))]. *)
Definition dispatchEvent (e : CustomEvent TRender World Failure) (st : State)
  : State :=
  observe (Dispatched e) st.

(** [[...this.plugins, ...(route.plugins ?? [])]]. *)
Definition allPlugins (r : t) (route : RouteT) : list Plugin :=
  plugins r ++ match Route.plugins route with
               | Some ps => ps
               | None => []
               end.

(** One iteration of the plugin loop: the hook, if any, is called and
    awaited inside [try]; a rejection is reported with an [error] event. *)
Definition runPlugin (route : RouteT) (st : State) (plugin : Plugin) : State :=
  match RouterPlugin.beforeNavigation plugin with
  | None => st
  | Some hook =>
      let started := observe (HookStarted plugin) st in
      let (result, a) := hook (Window.app (window started)) in
      let settled :=
        observe (HookSettled plugin result) (with_window (set_app a) started) in
      match result with
      | Fulfilled => settled
      | Rejected error => dispatchEvent (ErrorEvent error plugin route) settled
      end
  end.

Definition runPlugins (route : RouteT) (ps : list Plugin) (st : State) : State :=
  fold_left (runPlugin route) ps st.

(** [if (route.title) document.title = route.title]. *)
Definition updateTitle (route : RouteT) (st : State) : State :=
  if truthy_string (Route.title route)
  then with_window (set_title (Route.title route)) st
  else st.

(** The closure [updateDOM]: the state-commit step. *)
Definition updateDOM (route : RouteT) (st : State) : State :=
  dispatchEvent (RouteChanged route) (with_this (set_currentRoute (Some route)) st).

Definition skips (options : option HandleOptions) : bool :=
  match options with
  | Some o => match skipViewTransition o with
              | Some b => b
              | None => false
              end
  | None => false
  end.

(** The last part of [handleNavigation]: commit directly, or through a
    view transition with the [catch] fallback. *)
Definition commit (route : RouteT) (options : option HandleOptions) (st : State)
  : State :=
  if skips options then updateDOM route st
  else
    match Window.startViewTransition (window st) with
    | Some TransitionFinished => updateDOM route st
    | Some (TransitionFailed ran) =>
        let st' := if ran then updateDOM route st else st in
        updateDOM route (with_window console_warn st')
    | None => updateDOM route st
    end.

Definition handleNavigation (route : RouteT) (options : option HandleOptions)
  (st : State) : State :=
  let st1 := runPlugins route (allPlugins (this st) route) st in
  let st2 := updateTitle route st1 in
  commit route options st2.

(** *** [init()] *)

(** [this.patterns.set(pattern, route)] with a fresh key. *)
Definition patterns_set (pattern : URLPattern) (route : RouteT) (r : t) : t :=
  set_patterns (patterns r ++ [(pattern, route)]) r.

(** [for (const route of this.routes) ...], every pattern constructor
    returning; [compilePatterns] below is the loop with the throw. *)
Definition buildPatterns (r : t) : t :=
  fold_left
    (fun acc route => patterns_set (mkURLPattern (Route.path route)) route acc)
    (routes r) r.

(** [this.currentRoute = this.matchRoute(window.location.pathname)]. *)
Definition setInitialRoute (st : State) : State :=
  with_this
    (set_currentRoute (matchRoute (this st) (Window.location_pathname (window st))))
    st.

(** [setupNavigationListeners()]: one listener on each event source. *)
Definition setupNavigationListeners (st : State) : State :=
  with_window add_popstate_listener (with_window add_navigate_listener st).

(** The part of [init] that runs before its only [await]. *)
Definition initialize (st : State) : State :=
  let st1 := with_this buildPatterns st in
  let st2 := setInitialRoute st1 in
  let st3 := setupNavigationListeners st2 in
  with_this (set_initialized true) st3.

Definition init (st : State) : State :=
  if initialized (this st) then st
  else
    let st' := initialize st in
    match currentRoute (this st') with
    | Some route => handleNavigation route None st'
    | None => st'
    end.

(** *** [init()] with a pattern constructor that throws *)

(** [new URLPattern({ pathname: s })], [None] for the [TypeError]. *)
Definition URLPattern_new (s : string) : option URLPattern :=
  if URLPattern_accepts s then Some (mkURLPattern s) else None.

(** The loop of [init] as the source runs it: the first constructor that
    throws ends it ([false]), the entries set before it staying in the
    table. *)
Fixpoint compilePatterns (rs : list RouteT) (r : t) : t * bool :=
  match rs with
  | [] => (r, true)
  | route :: rest =>
      match URLPattern_new (Route.path route) with
      | Some pattern => compilePatterns rest (patterns_set pattern route r)
      | None => (r, false)
      end
  end.

(** How the promise of [init()] settles, with the state the call leaves. *)
Inductive InitResult : Type :=
| InitResolved (st : State)
| InitRejected (st : State).

(** [init()]: nothing catches the [TypeError], so it rejects the call
    before the initial route, the listeners and the flag are set. *)
Definition initOrThrow (st : State) : InitResult :=
  if initialized (this st) then InitResolved st
  else
    match compilePatterns (routes (this st)) (this st) with
    | (r, false) => InitRejected (with_this (fun _ => r) st)
    | (r, true) =>
        let st1 := with_this (fun _ => r) st in
        let st2 := setInitialRoute st1 in
        let st3 := setupNavigationListeners st2 in
        let st' := with_this (set_initialized true) st3 in
        match currentRoute (this st') with
        | Some route => InitResolved (handleNavigation route None st')
        | None => InitResolved st'
        end
    end.

Definition stateOf (result : InitResult) : State :=
  match result with
  | InitResolved st => st
  | InitRejected st => st
  end.

(** *** The two listeners *)

(** The argument of [event.intercept]. *)
Record Interception : Type := mkInterception {
  focusReset : string;
  scroll : string;
  handler : State -> State
}.

(** The ['navigate'] listener: [None] when it returns without calling
    [event.intercept]. *)
Definition onNavigate (event : NavigateEvent) (st : State) : option Interception :=
  let url := destination event in
  if negb (String.eqb (origin url) (Window.location_origin (window st))) then None
  else if truthy_nullable_string (downloadRequest event)
          || truthy_object (formData event) then None
  else if negb (canIntercept event) then None
  else
    match matchRoute (this st) (pathname url) with
    | None => None
    | Some route =>
        Some (mkInterception "manual" "manual" (handleNavigation route None))
    end.

(** A ['navigate'] event delivered to the listener, and the handler of a
    claimed interception run by the browser. *)
Definition deliverNavigate (event : NavigateEvent) (st : State) : State :=
  match onNavigate event st with
  | Some i => handler i st
  | None => st
  end.

(** [route.path !== this.currentRoute?.path]. *)
Definition differsFromCurrent (route : RouteT) (r : t) : bool :=
  match currentRoute r with
  | None => true
  | Some c => negb (String.eqb (Route.path route) (Route.path c))
  end.

(** The ['popstate'] listener. *)
Definition onPopstate (st : State) : State :=
  match matchRoute (this st) (Window.location_pathname (window st)) with
  | Some route =>
      if differsFromCurrent route (this st)
      then handleNavigation route None st
      else st
  | None => st
  end.

(** *** [navigate(path, options?)] *)

(** [string | URL]. *)
Inductive PathArg : Type :=
| PathString (s : string)
| PathURL (u : URL).

Record NavigateOptions : Type := mkNavigateOptions {
  state : option NavState
}.

(** How the promise returned by [navigate] settles: the URL constructor
    threw, or the awaited [finished] promise settled. *)
Inductive NavigateResult : Type :=
| InvalidURL
| AwaitedFinished (s : Settled Failure).

Definition resolveURL (path : PathArg) (st : State) : option URL :=
  match path with
  | PathString s => URL_new s (Window.location_origin (window st))
  | PathURL u => Some u
  end.

Definition navigateCall (u : URL) (options : option NavigateOptions)
  : NavigateCall NavState :=
  mkNavigateCall (href u) push true
    (match options with
     | Some o => state o
     | None => None
     end).

Definition navigate (path : PathArg) (options : option NavigateOptions)
  (st : State) : NavigateResult * State :=
  match resolveURL path st with
  | None => (InvalidURL, st)
  | Some u =>
      let call := navigateCall u options in
      (AwaitedFinished (Window.navigationFinished (window st) call),
       with_window (push_navigate_call call) st)
  end.

(** *** [getNavigationState()] *)

Definition getNavigationState (st : State) : option NavState :=
  Window.currentEntryState (window st).

(** *** [render()] and [getCurrentRoute()] *)

Definition render (r : t) : Nullable TRender :=
  match currentRoute r with
  | None => null
  | Some route => Route.render route tt
  end.

Definition getCurrentRoute (r : t) : Nullable RouteT :=
  currentRoute r.

End Def.

Arguments t : clear implicits.
Arguments State : clear implicits.
Arguments NavigateOptions : clear implicits.
Arguments NavigateResult : clear implicits.
Arguments Interception : clear implicits.
Arguments InitResult : clear implicits.

End Router.

(** ** Vocabulary of the statements *)

Section Vocabulary.
Context {TRender World Failure NavState : Type} {platform : Platform}
  {syntax : PatternSyntax}.

Local Abbreviation Plugin := (RouterPlugin.t World Failure).
Local Abbreviation RouteT := (Route.t TRender World Failure).
Local Abbreviation Obs := (Observation TRender World Failure).

(** The table entry [init] inserts for a route, and whether the pattern
    compiled from a route accepts a pathname. *)
Definition entryOf (route : RouteT) : URLPattern * RouteT :=
  (mkURLPattern (Route.path route), route).

Definition routeMatches (path : string) (route : RouteT) : bool :=
  URLPattern_test (mkURLPattern (Route.path route)) path.

(** The plugins of a list that define [beforeNavigation]. *)
Definition hasHook (p : Plugin) : bool :=
  match RouterPlugin.beforeNavigation p with
  | Some _ => true
  | None => false
  end.

Definition hooked (ps : list Plugin) : list Plugin := filter hasHook ps.

(** Projections of a log: the plugins whose hook was called, and the
    routes carried by [route-changed] events, both in order. *)
Fixpoint startedHooks (l : list Obs) : list Plugin :=
  match l with
  | [] => []
  | HookStarted p :: l' => p :: startedHooks l'
  | _ :: l' => startedHooks l'
  end.

Fixpoint routeChanges (l : list Obs) : list RouteT :=
  match l with
  | [] => []
  | Dispatched (RouteChanged r) :: l' => r :: routeChanges l'
  | _ :: l' => routeChanges l'
  end.

(** The [detail] of the [error] events of a log, and what the rejected
    hooks of a log call for when the target of the run is [route]. *)
Fixpoint errorEvents (l : list Obs) : list (Failure * Plugin * RouteT) :=
  match l with
  | [] => []
  | Dispatched (ErrorEvent error p route) :: l' => (error, p, route) :: errorEvents l'
  | _ :: l' => errorEvents l'
  end.

Fixpoint rejections (route : RouteT) (l : list Obs)
  : list (Failure * Plugin * RouteT) :=
  match l with
  | [] => []
  | HookSettled p (Rejected error) :: l' => (error, p, route) :: rejections route l'
  | _ :: l' => rejections route l'
  end.

(** A log in which hooks never overlap: the call of a hook is directly
    followed by the settling of that same hook, so no hook is called while
    another is pending.  (Plugins hold functions, so the predicate is a
    proposition rather than a boolean test.) *)
Inductive sequential : list Obs -> Prop :=
| sequential_nil : sequential []
| sequential_hook p result l :
    sequential l -> sequential (HookStarted p :: HookSettled p result :: l)
| sequential_dispatched e l :
    sequential l -> sequential (Dispatched e :: l).

(** What one awaited hook adds to the log. *)
Definition hookBlock (route : RouteT) (p : Plugin) (result : Settled Failure)
  : list Obs :=
  [HookStarted p; HookSettled p result]
  ++ match result with
     | Fulfilled => []
     | Rejected error => [Dispatched (ErrorEvent error p route)]
     end.

(** Whether the commit of a handling run goes through the [catch] of a
    failed view transition, and whether the update callback had already
    run by then. *)
Definition transitionFailed (o : option Router.HandleOptions)
  (w : Window.t World Failure NavState) : bool :=
  negb (Router.skips o)
  && match Window.startViewTransition w with
     | Some (TransitionFailed _) => true
     | _ => false
     end.

Definition committedTwice (o : option Router.HandleOptions)
  (w : Window.t World Failure NavState) : bool :=
  negb (Router.skips o)
  && match Window.startViewTransition w with
     | Some (TransitionFailed true) => true
     | _ => false
     end.

(** What the commit of a handling run adds to the log. *)
Definition commitLog (route : RouteT) (o : option Router.HandleOptions)
  (w : Window.t World Failure NavState) : list Obs :=
  (if committedTwice o w then [Dispatched (RouteChanged route)] else [])
  ++ [Dispatched (RouteChanged route)].

(** What can happen to a router after its construction: a call of [init]
    or [navigate], or one of the two events reaching its listener. *)
Inductive Call : Type :=
| CallInit
| NavigateEventFired (event : NavigateEvent)
| PopstateFired
| CallNavigate (path : Router.PathArg) (o : option (Router.NavigateOptions NavState)).

Definition perform (c : Call) (st : Router.State TRender World Failure NavState)
  : Router.State TRender World Failure NavState :=
  match c with
  | CallInit => Router.init st
  | NavigateEventFired event => Router.deliverNavigate event st
  | PopstateFired => Router.onPopstate st
  | CallNavigate path o => snd (Router.navigate path o st)
  end.

(** The states a router built from [options] in the environment [w0] can
    be in: after construction, after any call of a public method or of one
    of its listeners, and after any change of the environment that is not
    the router's doing (the router's two listeners are closures nobody
    else holds, so they stay registered). *)
Inductive reachable (options : RouterOptions.t TRender World Failure)
  (w0 : Window.t World Failure NavState)
  : Router.State TRender World Failure NavState -> Prop :=
| reach_construct : reachable options w0 (Router.construct options w0)
| reach_perform st c :
    reachable options w0 st -> reachable options w0 (perform c st)
| reach_environment st w :
    reachable options w0 st ->
    Window.navigateListeners w = Window.navigateListeners (Router.window st) ->
    Window.popstateListeners w = Window.popstateListeners (Router.window st) ->
    reachable options w0 (Router.mkState (Router.this st) w (Router.log st)).

(** The hooks of a list of plugins run one after the other, each on the
    application state the one before it left: the plugins whose hook ran,
    in order, each with how its hook settled, and the application state in
    the end. *)
Fixpoint hooksInSequence (ps : list Plugin) (a : World)
  : list (Plugin * Settled Failure) * World :=
  match ps with
  | [] => ([], a)
  | p :: rest =>
      match RouterPlugin.beforeNavigation p with
      | None => hooksInSequence rest a
      | Some hook =>
          let (result, a') := hook a in
          let (runs, a'') := hooksInSequence rest a' in
          ((p, result) :: runs, a'')
      end
  end.

(** What a sequence of awaited hooks adds to the log. *)
Definition hookBlocks (route : RouteT) (runs : list (Plugin * Settled Failure))
  : list Obs :=
  flat_map (fun run => hookBlock route (fst run) (snd run)) runs.

(** The routes at the head of a list whose path the pattern syntax
    accepts, and whether that is all of them. *)
Fixpoint acceptedPrefix (rs : list RouteT) : list RouteT :=
  match rs with
  | [] => []
  | route :: rest =>
      if URLPattern_accepts (Route.path route)
      then route :: acceptedPrefix rest
      else []
  end.

Definition allAccepted (rs : list RouteT) : bool :=
  forallb (fun route => URLPattern_accepts (Route.path route)) rs.

(** The life of a router when pattern constructors can throw: as
    [reachable], a call of [init] leaving the state [initOrThrow] leaves,
    resolved or rejected. *)
Definition performOrThrow (c : Call)
  (st : Router.State TRender World Failure NavState)
  : Router.State TRender World Failure NavState :=
  match c with
  | CallInit => Router.stateOf (Router.initOrThrow st)
  | _ => perform c st
  end.

Inductive reachableOrThrow (options : RouterOptions.t TRender World Failure)
  (w0 : Window.t World Failure NavState)
  : Router.State TRender World Failure NavState -> Prop :=
| reachT_construct : reachableOrThrow options w0 (Router.construct options w0)
| reachT_perform st c :
    reachableOrThrow options w0 st ->
    reachableOrThrow options w0 (performOrThrow c st)
| reachT_environment st w :
    reachableOrThrow options w0 st ->
    Window.navigateListeners w = Window.navigateListeners (Router.window st) ->
    Window.popstateListeners w = Window.popstateListeners (Router.window st) ->
    reachableOrThrow options w0 (Router.mkState (Router.this st) w (Router.log st)).

End Vocabulary.

(** ** The scenario of [router.test.ts]

    A small stand-in for the browser: patterns are compared segment by
    segment, a segment starting with a colon accepting any non-empty
    segment, and a path is resolved by appending it to the origin. *)

Module Scenario.

Fixpoint segments (s : string) : list string :=
  match s with
  | EmptyString => [EmptyString]
  | String c rest =>
      if Ascii.eqb c "/"%char then EmptyString :: segments rest
      else
        match segments rest with
        | [] => [String c EmptyString]
        | seg :: segs => String c seg :: segs
        end
  end.

Definition segmentMatches (pat seg : string) : bool :=
  match pat with
  | String ":" _ => truthy_string seg
  | _ => String.eqb pat seg
  end.

Fixpoint segmentsMatch (pats segs : list string) : bool :=
  match pats, segs with
  | [], [] => true
  | p :: pats', s :: segs' => segmentMatches p s && segmentsMatch pats' segs'
  | _, _ => false
  end.

Definition testPattern (p : URLPattern) (path : string) : bool :=
  segmentsMatch (segments (pattern_pathname p)) (segments path).

(** [new URL(s, base)] for a [base] that is an origin, on absolute http
    and https URLs, scheme-relative URLs and paths, absolute or relative:
    the pathname stops at the query or the fragment, and a URL without a
    host is refused.  Dot segments and other schemes are not covered. *)
Fixpoint stripPrefix (prefix s : string) : option string :=
  match prefix, s with
  | EmptyString, _ => Some s
  | String c prefix', String d s' =>
      if Ascii.eqb c d then stripPrefix prefix' s' else None
  | String _ _, EmptyString => None
  end.

Definition endsPath (c : ascii) : bool :=
  Ascii.eqb c "?"%char || Ascii.eqb c "#"%char.

Fixpoint beforeQuery (s : string) : string :=
  match s with
  | EmptyString => EmptyString
  | String c rest => if endsPath c then EmptyString else String c (beforeQuery rest)
  end.

Fixpoint splitHost (s : string) : string * string :=
  match s with
  | EmptyString => (EmptyString, EmptyString)
  | String c rest =>
      if Ascii.eqb c "/"%char || endsPath c then (EmptyString, s)
      else let (host, tail) := splitHost rest in (String c host, tail)
  end.

Definition absolute (scheme rest : string) : option URL :=
  let (host, tail) := splitHost rest in
  match host with
  | EmptyString => None
  | _ =>
      let tail' := match tail with
                   | String "/" _ => tail
                   | _ => ("/" ++ tail)%string
                   end in
      let site := (scheme ++ "://" ++ host)%string in
      Some (mkURL (site ++ tail')%string site (beforeQuery tail'))
  end.

Definition schemeOf (base : string) : option string :=
  match stripPrefix "http://" base, stripPrefix "https://" base with
  | Some _, _ => Some "http"
  | None, Some _ => Some "https"
  | None, None => None
  end.

Definition resolve (s base : string) : option URL :=
  match stripPrefix "http://" s, stripPrefix "https://" s, stripPrefix "//" s with
  | Some rest, _, _ => absolute "http" rest
  | None, Some rest, _ => absolute "https" rest
  | None, None, Some rest =>
      match schemeOf base with
      | Some scheme => absolute scheme rest
      | None => None
      end
  | None, None, None =>
      match s with
      | String "/" _ => Some (mkURL (base ++ s)%string base (beforeQuery s))
      | _ => Some (mkURL (base ++ "/" ++ s)%string base (beforeQuery ("/" ++ s)%string))
      end
  end.

Definition browser : Platform :=
  {| URLPattern_test := testPattern; URL_new := resolve |}.

(** The one syntax error the stand-in knows: a brace that is opened inside
    a group or never closed, or closed without having been opened. *)
Fixpoint bracesClosed (inGroup : bool) (s : string) : bool :=
  match s with
  | EmptyString => negb inGroup
  | String c rest =>
      if Ascii.eqb c "{"%char then negb inGroup && bracesClosed true rest
      else if Ascii.eqb c "}"%char then inGroup && bracesClosed false rest
      else bracesClosed inGroup rest
  end.

Definition patternSyntax : PatternSyntax :=
  {| URLPattern_accepts := bracesClosed false |}.

(** The application state hooks act on is a journal of what they did;
    failures are messages; render outputs are strings. *)
Definition World : Type := list string.
Definition Failure : Type := string.

Definition R := Route.t string World Failure.
Definition P := RouterPlugin.t World Failure.

Definition home : R := Route.mk "/" "Home" (fun _ => Some "<div>Home</div>") None.
Definition about : R := Route.mk "/about" "About" (fun _ => Some "<div>About</div>") None.
Definition user : R := Route.mk "/user/:id" "User Profile" (fun _ => Some "<div>User</div>") None.
Definition comment : R :=
  Route.mk "/post/:id/comment/:commentId" "Comment" (fun _ => Some "<div>Comment</div>") None.

Definition createTestRoutes : list R := [home; about; user; comment].

(** Two routes whose patterns overlap on [/user/me]. *)
Definition me : R := Route.mk "/user/me" "Me" (fun _ => Some "<div>Me</div>") None.

(** A route without a title, and one whose render function returns
    [null]. *)
Definition untitled : R := Route.mk "/" "" (fun _ => Some "<div>Home</div>") None.
Definition blank : R := Route.mk "/" "Home" (fun _ => None) None.

(** Plugins A (succeeds, leaving a mark) and B (fails). *)
Definition pluginA : P :=
  RouterPlugin.mk (Some "A") (Some (fun a : World => (Fulfilled, a ++ ["A ran"]))).
Definition pluginB : P :=
  RouterPlugin.mk (Some "B") (Some (fun a : World => (Rejected "B failed", a))).
Definition pluginC : P :=
  RouterPlugin.mk (Some "C") (Some (fun a : World => (Fulfilled, a ++ ["C ran"]))).

Definition guarded : R :=
  Route.mk "/about" "About" (fun _ => Some "<div>About</div>") (Some [pluginC]).

(** [window] at [http://localhost] with the given path, title and
    view-transition capability; every navigation finishes. *)
Definition windowAt (path title : string) (vt : option ViewTransition)
  : Window.t World Failure unit :=
  Window.mk "http://localhost" path title vt 0 0 [] (fun _ => Fulfilled) None 0 [].

Definition options (routes : list R) : RouterOptions.t string World Failure :=
  RouterOptions.mk routes None.

(** Global plugins A then B, and a route with a plugin C of its own. *)
Definition pluginOptions : RouterOptions.t string World Failure :=
  RouterOptions.mk [home; guarded] (Some [pluginA; pluginB]).

(** A click on [<a href=... download>] without a file name: the event's
    [downloadRequest] is the empty string. *)
Definition unnamedDownload (path : string) : NavigateEvent :=
  mkNavigateEvent (mkURL ("http://localhost" ++ path)%string "http://localhost" path)
    (Some "") None true.

(** The same click on a link whose [download] attribute names a file. *)
Definition namedDownload (path : string) : NavigateEvent :=
  mkNavigateEvent (mkURL ("http://localhost" ++ path)%string "http://localhost" path)
    (Some "report.pdf") None true.

(** A route whose path is not a pattern: the group is never closed. *)
Definition broken : R := Route.mk "/{" "Broken" (fun _ => Some "<div>Broken</div>") None.

(** The window [w] after the location has moved to [path]. *)
Definition relocated (path : string) (w : Window.t World Failure unit)
  : Window.t World Failure unit :=
  Window.mk (Window.location_origin w) path (Window.document_title w)
    (Window.startViewTransition w) (Window.navigateListeners w)
    (Window.popstateListeners w) (Window.navigateCalls w)
    (Window.navigationFinished w) (Window.currentEntryState w)
    (Window.warnings w) (Window.app w).

(** A page whose module is loaded by the [lazy] plugin, the import
    succeeding or failing. *)
Definition lazyAbout : R :=
  Route.mk "/about" "About" (fun _ => Some "<div>About</div>")
    (Some [lazy (fun a : World => (Fulfilled, a ++ ["about.js loaded"]))]).

Definition brokenLazyAbout : R :=
  Route.mk "/about" "About" (fun _ => Some "<div>About</div>")
    (Some [lazy (fun a : World => (Rejected "import failed", a))]).

End Scenario.

(** * Properties *)

Section Properties.
Context {TRender World Failure NavState : Type} {platform : Platform}
  {syntax : PatternSyntax}.

Local Abbreviation Plugin := (RouterPlugin.t World Failure).
Local Abbreviation RouteT := (Route.t TRender World Failure).
Local Abbreviation Options := (RouterOptions.t TRender World Failure).
Local Abbreviation Win := (Window.t World Failure NavState).
Local Abbreviation Obs := (Observation TRender World Failure).
Local Abbreviation State := (Router.State TRender World Failure NavState).

Implicit Types (st : State) (r : Router.t TRender World Failure) (route : RouteT)
  (ps : list Plugin) (w : Win) (l : list Obs).

(** ** Lists and logs *)

Lemma find_first (A : Type) (f : A -> bool) (pre : list A) (x : A) (post : list A) :
  f x = true ->
  (forall q, In q pre -> f q = false) ->
  find f (pre ++ x :: post) = Some x.
Proof.
  intros Hx Hpre. induction pre as [|q pre IH]; simpl.
  - now rewrite Hx.
  - rewrite (Hpre q (or_introl eq_refl)). apply IH.
    intros q' Hq'. apply Hpre. now right.
Qed.

Lemma find_nowhere (A : Type) (f : A -> bool) (xs : list A) :
  (forall q, In q xs -> f q = false) -> find f xs = None.
Proof.
  induction xs as [|x xs IH]; simpl; intros H; [reflexivity|].
  rewrite (H x (or_introl eq_refl)). apply IH. intros q Hq. apply H. now right.
Qed.

Lemma startedHooks_app l1 l2 :
  startedHooks (l1 ++ l2) = startedHooks l1 ++ startedHooks l2.
Proof.
  induction l1 as [|o l1 IH]; simpl; [reflexivity|].
  destruct o; simpl; now rewrite IH.
Qed.

Lemma routeChanges_app l1 l2 :
  routeChanges (l1 ++ l2) = routeChanges l1 ++ routeChanges l2.
Proof.
  induction l1 as [|o l1 IH]; simpl; [reflexivity|].
  destruct o as [p|p s|[e p r0|r0]]; simpl; now rewrite IH.
Qed.

Lemma errorEvents_app l1 l2 :
  errorEvents (l1 ++ l2) = errorEvents l1 ++ errorEvents l2.
Proof.
  induction l1 as [|o l1 IH]; simpl; [reflexivity|].
  destruct o as [p|p s|[e p r0|r0]]; simpl; now rewrite IH.
Qed.

Lemma rejections_app route l1 l2 :
  rejections route (l1 ++ l2) = rejections route l1 ++ rejections route l2.
Proof.
  induction l1 as [|o l1 IH]; simpl; [reflexivity|].
  destruct o as [p|p [|e]|ev]; simpl; now rewrite IH.
Qed.

Lemma sequential_app l1 l2 :
  sequential l1 -> sequential l2 -> sequential (l1 ++ l2).
Proof.
  intros H1 H2. induction H1; simpl; [exact H2 | |]; now constructor.
Qed.

Lemma hookBlock_started route (p : Plugin) (s : Settled Failure) :
  startedHooks (hookBlock route p s) = [p].
Proof. destruct s; reflexivity. Qed.

Lemma hookBlock_sequential route (p : Plugin) (s : Settled Failure) :
  sequential (hookBlock route p s).
Proof. destruct s; simpl; repeat constructor. Qed.

Lemma hookBlock_routeChanges route (p : Plugin) (s : Settled Failure) :
  routeChanges (hookBlock route p s) = [].
Proof. destruct s; reflexivity. Qed.

Lemma hookBlock_errorEvents route (p : Plugin) (s : Settled Failure) :
  errorEvents (hookBlock route p s) = rejections route (hookBlock route p s).
Proof. destruct s; reflexivity. Qed.

(** ** The pattern table *)

Lemma matchEntries_entryOf (routes : list RouteT) (path : string) :
  Router.matchEntries (map entryOf routes) path = find (routeMatches path) routes.
Proof.
  induction routes as [|route routes IH]; simpl; [reflexivity|].
  unfold routeMatches at 1.
  destruct (URLPattern_test (mkURLPattern (Route.path route)) path); [reflexivity | exact IH].
Qed.

Lemma matchEntries_In (entries : list (URLPattern * RouteT)) (path : string) route :
  Router.matchEntries entries path = Some route ->
  exists pattern, In (pattern, route) entries.
Proof.
  induction entries as [|[pattern route'] entries IH]; simpl; [discriminate|].
  destruct (URLPattern_test pattern path).
  - intros [= <-]. exists pattern. now left.
  - intros H. destruct (IH H) as [q Hq]. exists q. now right.
Qed.

Lemma buildPatterns_fold (routes : list RouteT) r :
  fold_left
    (fun acc route => Router.patterns_set (mkURLPattern (Route.path route)) route acc)
    routes r
  = Router.set_patterns (Router.patterns r ++ map entryOf routes) r.
Proof.
  revert r. induction routes as [|route routes IH]; intros r; simpl.
  - destruct r; unfold Router.set_patterns; simpl. now rewrite app_nil_r.
  - rewrite IH. destruct r; unfold Router.patterns_set, Router.set_patterns; simpl.
    now rewrite <- app_assoc.
Qed.

Lemma buildPatterns_spec r :
  Router.buildPatterns r
  = Router.set_patterns (Router.patterns r ++ map entryOf (Router.routes r)) r.
Proof. apply buildPatterns_fold. Qed.

(** ** The plugin loop *)

Lemma runPlugin_spec route st (p : Plugin) :
  Router.runPlugin route st p
  = match RouterPlugin.beforeNavigation p with
    | None => st
    | Some hook =>
        let out := hook (Window.app (Router.window st)) in
        Router.mkState (Router.this st)
          (Router.set_app (snd out) (Router.window st))
          (Router.log st ++ hookBlock route p (fst out))
    end.
Proof.
  unfold Router.runPlugin. destruct (RouterPlugin.beforeNavigation p) as [hook|]; [|reflexivity].
  simpl. destruct (hook (Window.app (Router.window st))) as [[|error] a]; simpl;
    unfold Router.dispatchEvent, Router.observe, Router.with_window; simpl;
    rewrite <- ?app_assoc; reflexivity.
Qed.

Lemma runPlugins_app route ps1 ps2 st :
  Router.runPlugins route (ps1 ++ ps2) st
  = Router.runPlugins route ps2 (Router.runPlugins route ps1 st).
Proof. apply fold_left_app. Qed.

(** The loop leaves the router alone, changes only the application state
    of the environment, and appends one block per hook, in order. *)
Lemma runPlugins_spec route ps st :
  exists (l : list Obs) (a : World),
    Router.runPlugins route ps st
    = Router.mkState (Router.this st) (Router.set_app a (Router.window st))
        (Router.log st ++ l)
    /\ startedHooks l = hooked ps
    /\ sequential l
    /\ routeChanges l = []
    /\ errorEvents l = rejections route l.
Proof.
  revert st. induction ps as [|p ps IH]; intros st.
  - exists [], (Window.app (Router.window st)). simpl.
    destruct st as [r w l]; destruct w; simpl. rewrite app_nil_r.
    repeat split; constructor.
  - unfold Router.runPlugins in *. simpl fold_left.
    destruct (IH (Router.runPlugin route st p))
      as (l & a & Heq & Hs & Hq & Hr & He).
    rewrite Heq, runPlugin_spec. unfold hooked, hasHook. simpl filter.
    destruct (RouterPlugin.beforeNavigation p) as [hook|].
    + set (out := hook (Window.app (Router.window st))).
      exists (hookBlock route p (fst out) ++ l), a.
      rewrite startedHooks_app, routeChanges_app, hookBlock_started,
        hookBlock_routeChanges.
      repeat split; auto.
      * cbn [Router.this Router.window Router.log]. rewrite <- app_assoc.
        reflexivity.
      * simpl. now f_equal.
      * apply sequential_app; [apply hookBlock_sequential | exact Hq].
      * now rewrite errorEvents_app, rejections_app, hookBlock_errorEvents, He.
    + exists l, a. auto.
Qed.

(** ** The handling sequence *)

Lemma commit_spec route (o : option Router.HandleOptions) st :
  Router.commit route o st
  = Router.mkState (Router.set_currentRoute (Some route) (Router.this st))
      (if transitionFailed o (Router.window st)
       then Router.console_warn (Router.window st)
       else Router.window st)
      (Router.log st ++ commitLog route o (Router.window st)).
Proof.
  unfold Router.commit, commitLog, transitionFailed, committedTwice.
  destruct (Router.skips o); simpl.
  - reflexivity.
  - destruct (Window.startViewTransition (Router.window st)) as [[|[|]]|];
      simpl; unfold Router.updateDOM, Router.dispatchEvent, Router.observe,
        Router.with_this, Router.with_window; simpl;
      rewrite <- ?app_assoc; reflexivity.
Qed.

(** The whole sequence in one equation: the router only gets its current
    route set, the environment gets the hooks' effects, the title and
    possibly a warning, and the log gets the hooks' blocks followed by the
    commit. *)
Lemma handleNavigation_spec route (o : option Router.HandleOptions) st :
  exists (l : list Obs) (a : World),
    Router.handleNavigation route o st
    = Router.mkState (Router.set_currentRoute (Some route) (Router.this st))
        (let w1 := Router.set_app a (Router.window st) in
         let w2 := if truthy_string (Route.title route)
                   then Router.set_title (Route.title route) w1 else w1 in
         if transitionFailed o (Router.window st)
         then Router.console_warn w2 else w2)
        (Router.log st ++ l ++ commitLog route o (Router.window st))
    /\ startedHooks l = hooked (Router.allPlugins (Router.this st) route)
    /\ sequential l
    /\ routeChanges l = []
    /\ errorEvents l = rejections route l.
Proof.
  destruct (runPlugins_spec route (Router.allPlugins (Router.this st) route) st)
    as (l & a & Heq & Hs & Hq & Hr & He).
  exists l, a. repeat split; auto.
  unfold Router.handleNavigation. rewrite Heq, commit_spec.
  unfold Router.updateTitle, commitLog, transitionFailed, committedTwice.
  destruct (truthy_string (Route.title route)); simpl;
    rewrite <- ?app_assoc; reflexivity.
Qed.

Lemma handleNavigation_this route (o : option Router.HandleOptions) st :
  Router.this (Router.handleNavigation route o st)
  = Router.set_currentRoute (Some route) (Router.this st).
Proof.
  destruct (handleNavigation_spec route o st) as (l & a & Heq & _).
  now rewrite Heq.
Qed.

(** ** [init] *)

Lemma initialize_this st :
  Router.this (Router.initialize st)
  = Router.set_initialized true
      (Router.set_currentRoute
         (Router.matchRoute (Router.buildPatterns (Router.this st))
            (Window.location_pathname (Router.window st)))
         (Router.buildPatterns (Router.this st))).
Proof. reflexivity. Qed.

Lemma initialize_log st : Router.log (Router.initialize st) = Router.log st.
Proof. reflexivity. Qed.

Lemma initialize_window st :
  Router.window (Router.initialize st)
  = Router.add_popstate_listener (Router.add_navigate_listener (Router.window st)).
Proof. reflexivity. Qed.

Lemma init_when_initialized st :
  Router.initialized (Router.this st) = true -> Router.init st = st.
Proof. unfold Router.init. now intros ->. Qed.

Lemma init_initialized st :
  Router.initialized (Router.this (Router.init st)) = true.
Proof.
  unfold Router.init.
  destruct (Router.initialized (Router.this st)) eqn:Hi; [exact Hi|].
  destruct (Router.currentRoute (Router.this (Router.initialize st))) as [route|].
  - now rewrite handleNavigation_this.
  - reflexivity.
Qed.

Lemma init_patterns (options : Options) w :
  Router.patterns (Router.this (Router.init (Router.construct options w)))
  = map entryOf (RouterOptions.routes options).
Proof.
  unfold Router.init. simpl Router.initialized. cbv iota.
  destruct (Router.currentRoute _) as [route|].
  - rewrite handleNavigation_this, initialize_this, buildPatterns_spec. reflexivity.
  - rewrite initialize_this, buildPatterns_spec. reflexivity.
Qed.

Lemma handleNavigation_listeners route (o : option Router.HandleOptions) st :
  Window.navigateListeners (Router.window (Router.handleNavigation route o st))
  = Window.navigateListeners (Router.window st)
  /\ Window.popstateListeners (Router.window (Router.handleNavigation route o st))
     = Window.popstateListeners (Router.window st).
Proof.
  destruct (handleNavigation_spec route o st) as (l & a & Heq & _).
  rewrite Heq. simpl.
  destruct (truthy_string (Route.title route)),
    (transitionFailed o (Router.window st)); simpl; auto.
Qed.

Lemma init_listeners st :
  Router.initialized (Router.this st) = false ->
  Window.navigateListeners (Router.window (Router.init st))
  = S (Window.navigateListeners (Router.window st))
  /\ Window.popstateListeners (Router.window (Router.init st))
     = S (Window.popstateListeners (Router.window st)).
Proof.
  intros Hi. unfold Router.init. rewrite Hi.
  destruct (Router.currentRoute (Router.this (Router.initialize st))) as [route|].
  - destruct (handleNavigation_listeners route None (Router.initialize st))
      as [-> ->]. now rewrite initialize_window.
  - now rewrite initialize_window.
Qed.

Lemma init_this_patterns st :
  Router.initialized (Router.this st) = false ->
  Router.patterns (Router.this (Router.init st))
  = Router.patterns (Router.this st) ++ map entryOf (Router.routes (Router.this st)).
Proof.
  intros Hi. unfold Router.init. rewrite Hi.
  destruct (Router.currentRoute (Router.this (Router.initialize st))) as [route|].
  - rewrite handleNavigation_this, initialize_this, buildPatterns_spec. reflexivity.
  - rewrite initialize_this, buildPatterns_spec. reflexivity.
Qed.

Lemma init_routes st :
  Router.routes (Router.this (Router.init st)) = Router.routes (Router.this st).
Proof.
  unfold Router.init. destruct (Router.initialized (Router.this st)); [reflexivity|].
  destruct (Router.currentRoute (Router.this (Router.initialize st))) as [route|].
  - rewrite handleNavigation_this, initialize_this, buildPatterns_spec. reflexivity.
  - rewrite initialize_this, buildPatterns_spec. reflexivity.
Qed.

(** What the two listeners and [navigate] leave untouched. *)
Lemma deliverNavigate_frame (event : NavigateEvent) st :
  let st' := Router.deliverNavigate event st in
  Router.routes (Router.this st') = Router.routes (Router.this st)
  /\ Router.patterns (Router.this st') = Router.patterns (Router.this st)
  /\ Router.initialized (Router.this st') = Router.initialized (Router.this st)
  /\ Window.navigateListeners (Router.window st')
     = Window.navigateListeners (Router.window st)
  /\ Window.popstateListeners (Router.window st')
     = Window.popstateListeners (Router.window st).
Proof.
  unfold Router.deliverNavigate, Router.onNavigate. cbv zeta.
  destruct (negb _); [auto 6|].
  destruct (_ || _); [auto 6|].
  destruct (negb _); [auto 6|].
  destruct (Router.matchRoute _ _) as [route|]; [|auto 6].
  cbn [Router.handler]. rewrite handleNavigation_this.
  destruct (handleNavigation_listeners route None st) as [-> ->]. auto 6.
Qed.

Lemma onPopstate_frame st :
  let st' := Router.onPopstate st in
  Router.routes (Router.this st') = Router.routes (Router.this st)
  /\ Router.patterns (Router.this st') = Router.patterns (Router.this st)
  /\ Router.initialized (Router.this st') = Router.initialized (Router.this st)
  /\ Window.navigateListeners (Router.window st')
     = Window.navigateListeners (Router.window st)
  /\ Window.popstateListeners (Router.window st')
     = Window.popstateListeners (Router.window st).
Proof.
  unfold Router.onPopstate. cbv zeta.
  destruct (Router.matchRoute _ _) as [route|]; [|auto 6].
  destruct (Router.differsFromCurrent route (Router.this st)); [|auto 6].
  rewrite handleNavigation_this.
  destruct (handleNavigation_listeners route None st) as [-> ->]. auto 6.
Qed.

Lemma navigate_frame (path : Router.PathArg) (o : option (Router.NavigateOptions NavState)) st :
  let st' := snd (Router.navigate path o st) in
  Router.this st' = Router.this st
  /\ Router.log st' = Router.log st
  /\ Window.navigateListeners (Router.window st')
     = Window.navigateListeners (Router.window st)
  /\ Window.popstateListeners (Router.window st')
     = Window.popstateListeners (Router.window st).
Proof.
  unfold Router.navigate. cbv zeta.
  destruct (Router.resolveURL path st); simpl; auto.
Qed.

(** At every point of a router's life the table is empty or built, and
    each listener is registered not at all or once, according to
    [initialized]. *)
Lemma reachable_initialized (options : Options) (w0 : Win) st :
  reachable options w0 st ->
  Router.routes (Router.this st) = RouterOptions.routes options
  /\ Router.patterns (Router.this st)
     = (if Router.initialized (Router.this st)
        then map entryOf (RouterOptions.routes options) else [])
  /\ Window.navigateListeners (Router.window st)
     = (if Router.initialized (Router.this st) then 1 else 0)
       + Window.navigateListeners w0
  /\ Window.popstateListeners (Router.window st)
     = (if Router.initialized (Router.this st) then 1 else 0)
       + Window.popstateListeners w0.
Proof.
  induction 1 as [|st c _ IH|st w _ IH Hn Hp].
  - simpl. auto.
  - destruct c as [|event| |path o]; unfold perform.
    + destruct IH as (Hr & Hpat & Hn & Hp).
      destruct (Router.initialized (Router.this st)) eqn:Hi.
      * rewrite (init_when_initialized st Hi), Hi. auto.
      * rewrite init_initialized, init_routes, (init_this_patterns st Hi), Hpat, Hr.
        destruct (init_listeners st Hi) as [-> ->]. rewrite Hn, Hp. simpl. auto.
    + destruct (deliverNavigate_frame event st) as (-> & -> & -> & -> & ->).
      exact IH.
    + destruct (onPopstate_frame st) as (-> & -> & -> & -> & ->). exact IH.
    + destruct (navigate_frame path o st) as (-> & _ & -> & ->). exact IH.
  - simpl. rewrite Hn, Hp. exact IH.
Qed.

(** ** Route matching *)

(** [matchRoute] walks the table in insertion order and stops at the first
    pattern that accepts the pathname. *)
Lemma matchEntries_first (pre : list (URLPattern * RouteT)) (pattern : URLPattern)
  route (post : list (URLPattern * RouteT)) (path : string) :
  URLPattern_test pattern path = true ->
  (forall e, In e pre -> URLPattern_test (fst e) path = false) ->
  Router.matchEntries (pre ++ (pattern, route) :: post) path = Some route.
Proof.
  intros Hx Hpre. induction pre as [|[q r'] pre IH]; simpl.
  - now rewrite Hx.
  - pose proof (Hpre (q, r') (or_introl eq_refl)) as Hq. simpl in Hq.
    rewrite Hq. apply IH. intros e He. apply Hpre. now right.
Qed.

(** C1.  After [init], [matchRoute] goes through the routes in the order
    they were given to the constructor: it returns the first route whose
    compiled pattern accepts the pathname (the first-declared one when
    several do), and [null] when none does.  The table is not touched
    again, so this holds in every later state of the router. *)
Theorem matchRoute_first_declared_match (options : Options) w (path : string) :
  let st := Router.init (Router.construct options w) in
  Router.matchRoute (Router.this st) path
  = find (routeMatches path) (RouterOptions.routes options)
  /\ (forall (pre : list RouteT) route (post : list RouteT),
        RouterOptions.routes options = pre ++ route :: post ->
        routeMatches path route = true ->
        (forall q, In q pre -> routeMatches path q = false) ->
        Router.matchRoute (Router.this st) path = Some route)
  /\ ((forall q, In q (RouterOptions.routes options) -> routeMatches path q = false) ->
      Router.matchRoute (Router.this st) path = null)
  /\ (forall st',
        reachable options w st' ->
        Router.initialized (Router.this st') = true ->
        Router.matchRoute (Router.this st') path
        = find (routeMatches path) (RouterOptions.routes options)).
Proof.
  cbv zeta.
  assert (E : Router.matchRoute
                (Router.this (Router.init (Router.construct options w))) path
              = find (routeMatches path) (RouterOptions.routes options)).
  { unfold Router.matchRoute. rewrite init_patterns. apply matchEntries_entryOf. }
  rewrite E. split; [reflexivity|]. split; [|split].
  - intros pre route post -> Hm Hpre. now apply find_first.
  - intros Hnone. now apply find_nowhere.
  - intros st' Hr Hi. destruct (reachable_initialized Hr) as (_ & Hp & _).
    unfold Router.matchRoute. rewrite Hp, Hi. apply matchEntries_entryOf.
Qed.

(** ** Initialisation happens once *)

Lemma init_idempotent st : Router.init (Router.init st) = Router.init st.
Proof. apply init_when_initialized, init_initialized. Qed.

Lemma init_iter (n : nat) st :
  Nat.iter n Router.init (Router.init st) = Router.init st.
Proof.
  induction n as [|n IH]; simpl; [reflexivity|]. rewrite IH. apply init_idempotent.
Qed.

(** When no pattern constructor throws, the body of [init] runs at most
    once: after the first call every
    further call returns the state unchanged (the flag is set before the
    first call reaches its [await], so this covers a call made while the
    first is still handling the initial route), and however the router has
    been used (any number of calls of [init] among them), each of the two
    listeners is registered exactly once and the table holds exactly one
    entry per route, in order, as soon as the router is initialised. *)
Theorem init_runs_once (options : Options) (w0 : Win) :
  (forall st (n : nat), Nat.iter n Router.init (Router.init st) = Router.init st)
  /\ (forall st, Router.initialized (Router.this (Router.initialize st)) = true)
  /\ (forall st,
        reachable options w0 st ->
        Router.initialized (Router.this st) = true ->
        Router.init st = st
        /\ Window.navigateListeners (Router.window st)
           = 1 + Window.navigateListeners w0
        /\ Window.popstateListeners (Router.window st)
           = 1 + Window.popstateListeners w0
        /\ Router.patterns (Router.this st)
           = map entryOf (RouterOptions.routes options))
  /\ (forall st,
        reachable options w0 st ->
        Router.initialized (Router.this st) = false ->
        Window.navigateListeners (Router.window st) = Window.navigateListeners w0
        /\ Window.popstateListeners (Router.window st) = Window.popstateListeners w0
        /\ Router.patterns (Router.this st) = [])
  /\ Router.initialized
       (Router.this (Router.init (Router.construct options w0))) = true.
Proof.
  split; [intros st n; apply init_iter|]. split; [reflexivity|]. split; [|split].
  - intros st Hr Hi. destruct (reachable_initialized Hr) as (_ & Hp & Hn & Hq).
    rewrite Hi in *. auto using init_when_initialized.
  - intros st Hr Hi. destruct (reachable_initialized Hr) as (_ & Hp & Hn & Hq).
    rewrite Hi in *. auto.
  - apply init_initialized.
Qed.

(** ** Rendering *)

(** C8 (amended).  [render()] returns [null] exactly when no route is
    current or the current route's render function itself returns [null];
    when a route is current, [render()] returns what that function returns.
    [render] reads the router and returns a value: it has no state to
    change. *)
Theorem render_absent_iff r :
  (Router.render r = null <->
   Router.getCurrentRoute r = null
   \/ exists route, Router.getCurrentRoute r = Some route
                    /\ Route.render route tt = null)
  /\ (forall route, Router.getCurrentRoute r = Some route ->
                    Router.render r = Route.render route tt).
Proof.
  unfold Router.render, Router.getCurrentRoute.
  destruct (Router.currentRoute r) as [route|]; split.
  - split.
    + intros H. right. now exists route.
    + intros [H | (route' & [= <-] & H)]; [discriminate | exact H].
  - now intros route' [= <-].
  - split; auto.
  - discriminate.
Qed.

(** ** Programmatic navigation *)

(** C9.  A path string that resolves against the current origin is
    navigated to exactly as the resolved [URL] object is: the same call of
    [navigation.navigate] (the resolved [href], [history: 'push'],
    [info.viewTransition], the optional state) is issued, and the promise
    returned by [navigate] settles as the [finished] promise of that call
    does. *)
Theorem navigate_string_as_URL (p : string) (u : URL)
  (o : option (Router.NavigateOptions NavState)) st :
  URL_new p (Window.location_origin (Router.window st)) = Some u ->
  let call :=
    mkNavigateCall (href u) push true
      (match o with Some o' => Router.state o' | None => None end) in
  Router.navigate (Router.PathString p) o st = Router.navigate (Router.PathURL u) o st
  /\ fst (Router.navigate (Router.PathString p) o st)
     = Router.AwaitedFinished (Window.navigationFinished (Router.window st) call)
  /\ Window.navigateCalls (Router.window (snd (Router.navigate (Router.PathString p) o st)))
     = Window.navigateCalls (Router.window st) ++ [call]
  /\ Router.this (snd (Router.navigate (Router.PathString p) o st)) = Router.this st.
Proof.
  intros Hu. cbv zeta. unfold Router.navigate, Router.resolveURL. rewrite Hu.
  repeat split.
Qed.

(** A string the URL constructor refuses makes [navigate] fail before any
    request is issued. *)
Lemma navigate_invalid_URL (p : string)
  (o : option (Router.NavigateOptions NavState)) st :
  URL_new p (Window.location_origin (Router.window st)) = None ->
  Router.navigate (Router.PathString p) o st = (Router.InvalidURL, st).
Proof.
  intros Hu. unfold Router.navigate, Router.resolveURL. now rewrite Hu.
Qed.

(** ** Interception *)

(** The exact condition under which the ['navigate'] listener of the code
    calls [event.intercept]: the download test is the truthiness of
    [event.downloadRequest]. *)
Lemma onNavigate_intercepts_iff (event : NavigateEvent) st :
  Router.onNavigate event st <> None <->
  origin (destination event) = Window.location_origin (Router.window st)
  /\ truthy_nullable_string (downloadRequest event) = false
  /\ formData event = None
  /\ canIntercept event = true
  /\ Router.matchRoute (Router.this st) (pathname (destination event)) <> None.
Proof.
  unfold Router.onNavigate. cbv zeta.
  destruct (String.eqb_spec (origin (destination event))
              (Window.location_origin (Router.window st))) as [Ho|Ho]; simpl.
  - destruct (truthy_nullable_string (downloadRequest event)); simpl.
    + split; [congruence | intros (_ & H & _); discriminate].
    + destruct (formData event) as [fd|]; simpl.
      * split; [congruence | intros (_ & _ & H & _); discriminate].
      * destruct (canIntercept event); simpl.
        -- destruct (Router.matchRoute _ _) as [route|].
           ++ split; [intros _; repeat split; auto; discriminate | discriminate].
           ++ split; [congruence | intros (_ & _ & _ & _ & H); congruence].
        -- split; [congruence | intros (_ & _ & _ & H & _); discriminate].
  - split; [congruence | intros (H & _); contradiction].
Qed.

(** ** Plugins in a handling run *)

Lemma commitLog_startedHooks route (o : option Router.HandleOptions) w :
  startedHooks (commitLog route o w) = [].
Proof. unfold commitLog. now destruct (committedTwice o w). Qed.

Lemma commitLog_sequential route (o : option Router.HandleOptions) w :
  sequential (commitLog route o w).
Proof. unfold commitLog. destruct (committedTwice o w); simpl; repeat constructor. Qed.

Lemma commitLog_last route (o : option Router.HandleOptions) w :
  exists earlier : list Obs,
    commitLog route o w = earlier ++ [Dispatched (RouteChanged route)].
Proof.
  unfold commitLog. destruct (committedTwice o w).
  - now exists [Dispatched (RouteChanged route)].
  - now exists [].
Qed.

Lemma handleNavigation_ends_with_commit route (o : option Router.HandleOptions) st :
  Router.currentRoute (Router.this (Router.handleNavigation route o st)) = Some route
  /\ exists earlier : list Obs,
       Router.log (Router.handleNavigation route o st)
       = earlier ++ [Dispatched (RouteChanged route)].
Proof.
  split; [now rewrite handleNavigation_this|].
  destruct (handleNavigation_spec route o st) as (l & a & Heq & _).
  destruct (commitLog_last route o (Router.window st)) as (earlier & Hc).
  exists (Router.log st ++ l ++ earlier).
  rewrite Heq, Hc. simpl. now rewrite <- !app_assoc.
Qed.

(** C2.  When the hook of a plugin of the run rejects, the log shows the
    call, the rejection and exactly one [error] event with that failure,
    that plugin and the target route, directly after it; the run goes on:
    the hooks of all the plugins after it are called, the target route
    becomes current, and the log ends with [route-changed] for it.  Over
    the whole run the [error] events are, one for one and in order, the
    rejected hooks. *)
Theorem handleNavigation_reports_failure_and_goes_on route
  (o : option Router.HandleOptions) st (pre : list Plugin) (plugin : Plugin)
  (post : list Plugin) (hook : World -> Settled Failure * World)
  (error : Failure) (a : World) :
  Router.allPlugins (Router.this st) route = pre ++ plugin :: post ->
  RouterPlugin.beforeNavigation plugin = Some hook ->
  hook (Window.app (Router.window (Router.runPlugins route pre st)))
  = (Rejected error, a) ->
  let final := Router.handleNavigation route o st in
  exists before after tail : list Obs,
    let added :=
      before
      ++ [HookStarted plugin; HookSettled plugin (Rejected error);
          Dispatched (ErrorEvent error plugin route)]
      ++ after ++ tail ++ [Dispatched (RouteChanged route)] in
    Router.log final = Router.log st ++ added
    /\ startedHooks before = hooked pre
    /\ startedHooks after = hooked post
    /\ startedHooks tail = []
    /\ errorEvents added = rejections route added
    /\ Router.currentRoute (Router.this final) = Some route.
Proof.
  intros Hall Hhook Hfail final.
  destruct (runPlugins_spec route pre st)
    as (before & a1 & E1 & S1 & _ & _ & X1).
  assert (E2 : Router.runPlugin route (Router.runPlugins route pre st) plugin
               = Router.mkState (Router.this st)
                   (Router.set_app a (Router.window st))
                   (Router.log st ++ before
                    ++ hookBlock route plugin (Rejected error))).
  { rewrite runPlugin_spec, Hhook. cbv zeta. rewrite Hfail, E1.
    cbn [fst snd Router.this Router.window Router.log].
    now rewrite <- app_assoc. }
  destruct (runPlugins_spec route post
              (Router.runPlugin route (Router.runPlugins route pre st) plugin))
    as (after & a3 & E3 & S3 & _ & _ & X3).
  rewrite E2 in E3. cbn [Router.this Router.window Router.log] in E3.
  destruct (commitLog_last route o (Router.window st)) as (tail & Ht).
  assert (Htail : startedHooks tail = [] /\ errorEvents tail = rejections route tail).
  { unfold commitLog in Ht. destruct (committedTwice o (Router.window st)).
    - destruct tail as [|x [|y tail]]; simpl in Ht; try discriminate.
      + injection Ht as <-. split; reflexivity.
      + injection Ht as _ Ht. destruct tail; discriminate.
    - destruct tail as [|x tail]; [split; reflexivity|].
      simpl in Ht. injection Ht as _ Ht. destruct tail; discriminate. }
  exists before, after, tail. cbv zeta. repeat split; auto.
  - subst final. unfold Router.handleNavigation. rewrite Hall, runPlugins_app.
    change (Router.runPlugins route (plugin :: post) (Router.runPlugins route pre st))
      with (Router.runPlugins route post
              (Router.runPlugin route (Router.runPlugins route pre st) plugin)).
    rewrite E2, E3, commit_spec.
    assert (Ec : forall w' : Win,
               Window.startViewTransition w'
               = Window.startViewTransition (Router.window st) ->
               commitLog route o w' = commitLog route o (Router.window st)).
    { intros w' Hw. unfold commitLog, committedTwice. now rewrite Hw. }
    rewrite Ec.
    + rewrite Ht. unfold Router.updateTitle.
      destruct (truthy_string (Route.title route)); simpl;
        rewrite <- !app_assoc; reflexivity.
    + unfold Router.updateTitle.
      destruct (truthy_string (Route.title route)); reflexivity.
  - apply Htail.
  - change [HookStarted plugin; HookSettled plugin (Rejected error);
            Dispatched (ErrorEvent error plugin route)]
      with (hookBlock route plugin (Rejected error)).
    rewrite !errorEvents_app, !rejections_app, hookBlock_errorEvents, X1, X3.
    now rewrite (proj2 Htail).
  - subst final. now rewrite handleNavigation_this.
Qed.

Lemma hooksInSequence_hooked ps (a : World) :
  map fst (fst (hooksInSequence ps a)) = hooked ps.
Proof.
  revert a. induction ps as [|p ps IH]; intros a; simpl; [reflexivity|].
  unfold hooked, hasHook. simpl filter.
  destruct (RouterPlugin.beforeNavigation p) as [hook|]; [|apply IH].
  destruct (hook a) as [result a']. specialize (IH a').
  destruct (hooksInSequence ps a') as [runs a'']. simpl in *. now f_equal.
Qed.

(** The plugin loop against the hooks run in sequence: same application
    state, and a log that grows by the block of each hook, in order. *)
Lemma runPlugins_hooksInSequence route ps st :
  Router.runPlugins route ps st
  = Router.mkState (Router.this st)
      (Router.set_app (snd (hooksInSequence ps (Window.app (Router.window st))))
         (Router.window st))
      (Router.log st
       ++ hookBlocks route (fst (hooksInSequence ps (Window.app (Router.window st))))).
Proof.
  revert st. induction ps as [|p ps IH]; intros st.
  - simpl. destruct st as [r w l]; destruct w; simpl. now rewrite app_nil_r.
  - change (Router.runPlugins route (p :: ps) st)
      with (Router.runPlugins route ps (Router.runPlugin route st p)).
    rewrite IH, runPlugin_spec. simpl hooksInSequence.
    destruct (RouterPlugin.beforeNavigation p) as [hook|]; [|reflexivity].
    cbv zeta. cbn [Router.this Router.window Router.log Router.set_app Window.app].
    destruct (hook (Window.app (Router.window st))) as [result a'].
    cbn [fst snd].
    destruct (hooksInSequence ps a') as [runs a'']. cbn [fst snd].
    unfold hookBlocks. cbn [flat_map fst snd]. now rewrite <- app_assoc.
Qed.

(** C3.  A handling run runs the hooks of the global plugins followed by
    those of the route's plugins, each list in its declared order, one
    after the other: what the run adds to the log is, for each of these
    hooks in turn, its call directly followed by its settling (and the
    [error] event of a rejection), then the commit; each hook is applied
    to the application state the hooks before it have left, and the state
    after the run is the one the last hook left. *)
Theorem handleNavigation_plugins_in_order route (o : option Router.HandleOptions) st :
  let globals := Router.plugins (Router.this st) in
  let own := match Route.plugins route with
             | Some ps => ps
             | None => []
             end in
  let out := hooksInSequence (globals ++ own) (Window.app (Router.window st)) in
  let final := Router.handleNavigation route o st in
  let added := hookBlocks route (fst out) ++ commitLog route o (Router.window st) in
  Router.log final = Router.log st ++ added
  /\ Window.app (Router.window final) = snd out
  /\ map fst (fst out) = hooked globals ++ hooked own
  /\ startedHooks added = hooked globals ++ hooked own
  /\ sequential added
  /\ (forall (pre : list Plugin) (plugin : Plugin) (post : list Plugin)
         (hook : World -> Settled Failure * World),
        Router.allPlugins (Router.this st) route = pre ++ plugin :: post ->
        RouterPlugin.beforeNavigation plugin = Some hook ->
        Window.app (Router.window (Router.runPlugins route (pre ++ [plugin]) st))
        = snd (hook (Window.app (Router.window (Router.runPlugins route pre st))))).
Proof.
  cbv zeta.
  assert (Elog : Router.log (Router.handleNavigation route o st)
                 = Router.log st
                   ++ hookBlocks route
                        (fst (hooksInSequence (Router.allPlugins (Router.this st) route)
                                (Window.app (Router.window st))))
                   ++ commitLog route o (Router.window st)
                 /\ Window.app (Router.window (Router.handleNavigation route o st))
                    = snd (hooksInSequence (Router.allPlugins (Router.this st) route)
                             (Window.app (Router.window st)))).
  { unfold Router.handleNavigation. rewrite runPlugins_hooksInSequence, commit_spec.
    unfold Router.updateTitle, commitLog, committedTwice, transitionFailed.
    destruct (truthy_string (Route.title route)); simpl;
      destruct (Router.skips o); simpl;
      destruct (Window.startViewTransition (Router.window st)) as [[|[|]]|]; simpl;
      rewrite <- ?app_assoc; auto. }
  destruct Elog as [Elog Eapp].
  destruct (handleNavigation_spec route o st) as (l & a & Heq & Hs & Hq & _).
  assert (El : l = hookBlocks route
                     (fst (hooksInSequence (Router.allPlugins (Router.this st) route)
                             (Window.app (Router.window st))))).
  { rewrite Heq in Elog. cbn [Router.log] in Elog.
    apply app_inv_head in Elog. now apply app_inv_tail in Elog. }
  subst l. unfold Router.allPlugins in *.
  split; [exact Elog|]. split; [exact Eapp|].
  split; [rewrite hooksInSequence_hooked; apply filter_app|].
  split; [|split].
  - rewrite startedHooks_app, commitLog_startedHooks, app_nil_r, Hs. apply filter_app.
  - apply sequential_app; [exact Hq | apply commitLog_sequential].
  - intros pre plugin post hook _ Hhook.
    rewrite runPlugins_app.
    change (Router.runPlugins route [plugin] (Router.runPlugins route pre st))
      with (Router.runPlugin route (Router.runPlugins route pre st) plugin).
    rewrite runPlugin_spec, Hhook. reflexivity.
Qed.

(** ** The first navigation, during [init] *)

(** On a router that has not been initialised and whose table is still
    empty, [init] looks the startup pathname up among the routes, in
    order. *)
Lemma initialize_currentRoute st :
  Router.patterns (Router.this st) = [] ->
  Router.currentRoute (Router.this (Router.initialize st))
  = find (routeMatches (Window.location_pathname (Router.window st)))
      (Router.routes (Router.this st)).
Proof.
  intros Hp. rewrite initialize_this. simpl.
  unfold Router.matchRoute. rewrite buildPatterns_spec, Hp. simpl.
  apply matchEntries_entryOf.
Qed.

(** C4 (amended).  When the startup pathname matches a route, and unless a
    view transition fails after its update callback has already run, then
    after [init] exactly one [route-changed] has been dispatched, carrying
    that route, which is now current; the document title is the route's
    title when that title is not empty, and is left as it was otherwise. *)
Theorem init_first_navigation (options : Options) w route :
  find (routeMatches (Window.location_pathname w)) (RouterOptions.routes options)
  = Some route ->
  Window.startViewTransition w <> Some (TransitionFailed true) ->
  let st := Router.init (Router.construct options w) in
  routeChanges (Router.log st) = [route]
  /\ Router.getCurrentRoute (Router.this st) = Some route
  /\ Window.document_title (Router.window st)
     = (if truthy_string (Route.title route)
        then Route.title route
        else Window.document_title w).
Proof.
  intros Hfind Hvt. cbv zeta. unfold Router.init. simpl Router.initialized. cbv iota.
  rewrite initialize_currentRoute by reflexivity. simpl Router.window.
  simpl Router.routes. rewrite Hfind.
  destruct (handleNavigation_spec route None
              (Router.initialize (Router.construct options w)))
    as (l & a & Heq & _ & _ & Hr & _).
  rewrite Heq. cbn [Router.log Router.this Router.window Router.getCurrentRoute].
  repeat split.
  - rewrite initialize_log. simpl. rewrite routeChanges_app, Hr. simpl.
    unfold commitLog, committedTwice. simpl.
    destruct (Window.startViewTransition w) as [[|[|]]|]; try reflexivity.
    now contradiction Hvt.
  - simpl.
    destruct (truthy_string (Route.title route)),
      (transitionFailed None
         (Router.add_popstate_listener (Router.add_navigate_listener w)));
      reflexivity.
Qed.

(** ** The current route *)

Lemma matchRoute_reachable (options : Options) (w0 : Win) st (path : string) route :
  reachable options w0 st ->
  Router.matchRoute (Router.this st) path = Some route ->
  In route (RouterOptions.routes options)
  /\ Router.initialized (Router.this st) = true.
Proof.
  intros Hr Hm. destruct (reachable_initialized Hr) as (_ & Hp & _).
  unfold Router.matchRoute in Hm. rewrite Hp in Hm.
  destruct (Router.initialized (Router.this st)); [|discriminate].
  split; [|reflexivity].
  destruct (matchEntries_In _ _ Hm) as (pattern & Hin).
  apply in_map_iff in Hin. destruct Hin as (route' & [= _ ->] & Hin). exact Hin.
Qed.

(** Before [init] there is no current route; afterwards the current route,
    if any, is one of the routes given to the constructor. *)
Lemma reachable_currentRoute (options : Options) (w0 : Win) st :
  reachable options w0 st ->
  (Router.initialized (Router.this st) = false ->
   Router.currentRoute (Router.this st) = None)
  /\ (forall route, Router.currentRoute (Router.this st) = Some route ->
                    In route (RouterOptions.routes options)).
Proof.
  induction 1 as [|st c Hr IH|st w _ IH Hn Hp].
  - simpl. split; [reflexivity | discriminate].
  - destruct IH as [IH0 IH1]. destruct c as [|event| |path o]; unfold perform.
    + destruct (Router.initialized (Router.this st)) eqn:Hi.
      * rewrite (init_when_initialized st Hi). rewrite Hi. auto.
      * rewrite init_initialized. split; [discriminate|].
        destruct (reachable_initialized Hr) as (Hroutes & Hpat & _).
        rewrite Hi in Hpat. unfold Router.init. rewrite Hi.
        pose proof (initialize_currentRoute st Hpat) as Hc.
        destruct (Router.currentRoute (Router.this (Router.initialize st)))
          as [route0|] eqn:Hcur.
        -- rewrite handleNavigation_this. simpl. intros route [= <-].
           symmetry in Hc. apply find_some in Hc. rewrite <- Hroutes. apply Hc.
        -- rewrite Hcur. discriminate.
    + unfold Router.deliverNavigate, Router.onNavigate. cbv zeta.
      destruct (negb _); [auto|]. destruct (_ || _); [auto|].
      destruct (negb _); [auto|].
      destruct (Router.matchRoute _ _) as [route0|] eqn:Hm; [|auto].
      destruct (matchRoute_reachable _ Hr Hm) as [Hin Hi].
      cbn [Router.handler]. rewrite handleNavigation_this. simpl. rewrite Hi.
      split; [discriminate | now intros route [= <-]].
    + unfold Router.onPopstate.
      destruct (Router.matchRoute _ _) as [route0|] eqn:Hm; [|auto].
      destruct (Router.differsFromCurrent route0 (Router.this st)); [|auto].
      destruct (matchRoute_reachable _ Hr Hm) as [Hin Hi].
      rewrite handleNavigation_this. simpl. rewrite Hi.
      split; [discriminate | now intros route [= <-]].
    + destruct (navigate_frame path o st) as (-> & _). auto.
  - simpl. exact IH.
Qed.

(** ** Construction *)

(** C10.  Construction only stores the configuration: the pattern table is
    empty, so [matchRoute] finds nothing for any pathname;
    [getCurrentRoute()] and [render()] return [null]; the environment
    (listeners included) is as it was and nothing has been dispatched.
    As long as [init] has not been called this stays so, whatever events
    and calls of [navigate] reach the router. *)
Theorem construct_only_stores_configuration (options : Options) w :
  let st := Router.construct options w in
  (Router.routes (Router.this st) = RouterOptions.routes options
   /\ Router.patterns (Router.this st) = []
   /\ (forall path, Router.matchRoute (Router.this st) path = null)
   /\ Router.getCurrentRoute (Router.this st) = null
   /\ Router.render (Router.this st) = null
   /\ Router.initialized (Router.this st) = false
   /\ Router.window st = w
   /\ Router.log st = [])
  /\ (forall st',
        reachable options w st' ->
        Router.initialized (Router.this st') = false ->
        (forall path, Router.matchRoute (Router.this st') path = null)
        /\ Router.getCurrentRoute (Router.this st') = null
        /\ Router.render (Router.this st') = null
        /\ Window.navigateListeners (Router.window st') = Window.navigateListeners w
        /\ Window.popstateListeners (Router.window st') = Window.popstateListeners w).
Proof.
  cbv zeta. split; [repeat split|].
  intros st' Hr Hi.
  destruct (reachable_initialized Hr) as (_ & Hp & Hn & Hq).
  pose proof (proj1 (reachable_currentRoute Hr) Hi) as Hc.
  rewrite Hi in *. unfold Router.matchRoute, Router.render, Router.getCurrentRoute.
  rewrite Hp, Hc. auto.
Qed.

(** C7 (amended).  The current route is always [null] or one of the routes
    given to the constructor.  It is assigned in two places only: [init]
    assigns it the match of the startup pathname directly, before the
    handling sequence starts and without dispatching anything; and the
    commit that ends a handling sequence assigns it the target route and
    dispatches [route-changed] last, the plugin loop and the title update
    before it leaving the router untouched.  Every call or event that
    changes the current route ends with that commit. *)
Theorem currentRoute_invariant (options : Options) (w0 : Win) :
  (forall st route,
     reachable options w0 st ->
     Router.getCurrentRoute (Router.this st) = Some route ->
     In route (RouterOptions.routes options))
  /\ (forall st,
        Router.currentRoute (Router.this (Router.initialize st))
        = Router.matchRoute (Router.buildPatterns (Router.this st))
            (Window.location_pathname (Router.window st))
        /\ Router.log (Router.initialize st) = Router.log st)
  /\ (forall route st,
        Router.this
          (Router.updateTitle route
             (Router.runPlugins route (Router.allPlugins (Router.this st) route) st))
        = Router.this st)
  /\ (forall route (o : option Router.HandleOptions) st,
        Router.this (Router.commit route o st)
        = Router.set_currentRoute (Some route) (Router.this st)
        /\ exists earlier : list Obs,
             Router.log (Router.commit route o st)
             = earlier ++ [Dispatched (RouteChanged route)])
  /\ (forall st (c : Call),
        reachable options w0 st ->
        Router.currentRoute (Router.this (perform c st))
        = Router.currentRoute (Router.this st)
        \/ exists route (earlier : list Obs),
             Router.currentRoute (Router.this (perform c st)) = Some route
             /\ Router.log (perform c st)
                = earlier ++ [Dispatched (RouteChanged route)]).
Proof.
  split; [|split; [|split; [|split]]].
  - intros st route Hr Hc. exact (proj2 (reachable_currentRoute Hr) route Hc).
  - intros st. split; reflexivity.
  - intros route st.
    destruct (runPlugins_spec route (Router.allPlugins (Router.this st) route) st)
      as (l & a & Heq & _).
    rewrite Heq. unfold Router.updateTitle.
    destruct (truthy_string (Route.title route)); reflexivity.
  - intros route o st. rewrite commit_spec. split; [reflexivity|].
    destruct (commitLog_last route o (Router.window st)) as (earlier & Hc).
    exists (Router.log st ++ earlier). simpl. now rewrite Hc, app_assoc.
  - intros st c Hr.
    assert (Hh : forall route (st1 : State),
               exists route' (earlier : list Obs),
                 Router.currentRoute
                   (Router.this (Router.handleNavigation route None st1))
                 = Some route'
                 /\ Router.log (Router.handleNavigation route None st1)
                    = earlier ++ [Dispatched (RouteChanged route')]).
    { intros route st1.
      destruct (handleNavigation_ends_with_commit route None st1)
        as (Hc & earlier & Hl).
      now exists route, earlier. }
    destruct c as [|event| |path o]; unfold perform.
    + unfold Router.init.
      destruct (Router.initialized (Router.this st)) eqn:Hi; [now left|].
      destruct (Router.currentRoute (Router.this (Router.initialize st)))
        as [route|] eqn:Hcur.
      * right. apply Hh.
      * left. rewrite Hcur. symmetry.
        exact (proj1 (reachable_currentRoute Hr) Hi).
    + unfold Router.deliverNavigate, Router.onNavigate. cbv zeta.
      destruct (negb _); [now left|]. destruct (_ || _); [now left|].
      destruct (negb _); [now left|].
      destruct (Router.matchRoute _ _) as [route|]; [|now left].
      right. apply Hh.
    + unfold Router.onPopstate.
      destruct (Router.matchRoute _ _) as [route|]; [|now left].
      destruct (Router.differsFromCurrent route (Router.this st)); [|now left].
      right. apply Hh.
    + left. now destruct (navigate_frame path o st) as (-> & _).
Qed.

(** ** [init] with a pattern constructor that throws *)

Lemma compilePatterns_spec (rs : list RouteT) r :
  Router.compilePatterns rs r
  = (Router.set_patterns (Router.patterns r ++ map entryOf (acceptedPrefix rs)) r,
     allAccepted rs).
Proof.
  revert r. induction rs as [|route rs IH]; intros r; simpl.
  - destruct r; unfold Router.set_patterns; simpl. now rewrite app_nil_r.
  - unfold Router.URLPattern_new.
    destruct (URLPattern_accepts (Route.path route)); simpl.
    + rewrite IH. destruct r; unfold Router.patterns_set, Router.set_patterns; simpl.
      now rewrite <- app_assoc.
    + destruct r; unfold Router.set_patterns; simpl. now rewrite app_nil_r.
Qed.

Lemma acceptedPrefix_all (rs : list RouteT) :
  allAccepted rs = true -> acceptedPrefix rs = rs.
Proof.
  induction rs as [|route rs IH]; simpl; [reflexivity|].
  destruct (URLPattern_accepts (Route.path route)); simpl; [|discriminate].
  intros H. now rewrite IH.
Qed.

(** When every path is a pattern, the call is the one [Router.init]
    describes. *)
Lemma initOrThrow_resolved st :
  Router.initialized (Router.this st) = false ->
  allAccepted (Router.routes (Router.this st)) = true ->
  Router.initOrThrow st = Router.InitResolved (Router.init st).
Proof.
  intros Hi Ha. unfold Router.initOrThrow, Router.init.
  rewrite Hi, compilePatterns_spec, Ha, (acceptedPrefix_all _ Ha).
  rewrite <- buildPatterns_spec. cbv zeta.
  change (Router.with_this (fun _ => Router.buildPatterns (Router.this st)) st)
    with (Router.with_this Router.buildPatterns st).
  fold (Router.initialize st).
  now destruct (Router.currentRoute (Router.this (Router.initialize st))).
Qed.

Lemma initOrThrow_rejected st :
  Router.initialized (Router.this st) = false ->
  allAccepted (Router.routes (Router.this st)) = false ->
  Router.initOrThrow st
  = Router.InitRejected
      (Router.with_this
         (fun r => Router.set_patterns
                     (Router.patterns r
                      ++ map entryOf (acceptedPrefix (Router.routes r))) r)
         st).
Proof.
  intros Hi Ha. unfold Router.initOrThrow.
  now rewrite Hi, compilePatterns_spec, Ha.
Qed.

Lemma initOrThrow_initialized st :
  Router.initialized (Router.this st) = true ->
  Router.initOrThrow st = Router.InitResolved st.
Proof. intros Hi. unfold Router.initOrThrow. now rewrite Hi. Qed.

(** At every point of a router's life, pattern constructors throwing or
    not: each listener is registered once or not at all, according to
    [initialized]; an initialised router has the table of its routes; and
    a router that is not initialised although all its paths are patterns
    has an empty table. *)
Lemma reachableOrThrow_initialized (options : Options) (w0 : Win) st :
  reachableOrThrow options w0 st ->
  Router.routes (Router.this st) = RouterOptions.routes options
  /\ Window.navigateListeners (Router.window st)
     = (if Router.initialized (Router.this st) then 1 else 0)
       + Window.navigateListeners w0
  /\ Window.popstateListeners (Router.window st)
     = (if Router.initialized (Router.this st) then 1 else 0)
       + Window.popstateListeners w0
  /\ (Router.initialized (Router.this st) = true ->
      Router.patterns (Router.this st) = map entryOf (RouterOptions.routes options))
  /\ (Router.initialized (Router.this st) = false ->
      allAccepted (RouterOptions.routes options) = true ->
      Router.patterns (Router.this st) = []).
Proof.
  induction 1 as [|st c _ IH|st w _ IH Hn Hp].
  - simpl. repeat split; auto. discriminate.
  - destruct IH as (Hr & Hn & Hp & Ht & Hf).
    destruct c as [|event| |path o]; unfold performOrThrow, perform.
    + destruct (Router.initialized (Router.this st)) eqn:Hi.
      * rewrite (initOrThrow_initialized st Hi). simpl. rewrite Hi. auto.
      * destruct (allAccepted (Router.routes (Router.this st))) eqn:Ha.
        -- rewrite (initOrThrow_resolved st Hi Ha). simpl.
           rewrite init_initialized, init_routes, (init_this_patterns st Hi).
           destruct (init_listeners st Hi) as [-> ->]. rewrite Hn, Hp, Hr.
           rewrite Hr in Ha. rewrite (Hf eq_refl Ha). simpl.
           repeat split; auto. discriminate.
        -- rewrite (initOrThrow_rejected st Hi Ha). simpl. rewrite Hi.
           repeat split; auto; try discriminate.
           intros _ Hall. rewrite Hr in Ha. congruence.
    + destruct (deliverNavigate_frame event st) as (-> & -> & -> & -> & ->). auto.
    + destruct (onPopstate_frame st) as (-> & -> & -> & -> & ->). auto.
    + destruct (navigate_frame path o st) as (-> & _ & -> & ->). auto.
  - simpl. rewrite Hn, Hp. exact IH.
Qed.

(** C5 (amended).  The body of [init] runs to its end at most once: once a
    call has completed, the router is initialised and every further call
    returns at once with the state unchanged; an initialised router has
    exactly one listener registered on each event source and a table
    built once, one entry per route in order; a router that is not
    initialised has registered none.  A call in which a pattern
    constructor throws is rejected before anything but the table is
    touched: it registers nothing and leaves the router uninitialised.
    When every path is a pattern the first call completes. *)
Theorem init_completes_once (options : Options) (w0 : Win) :
  (forall st st',
     Router.initOrThrow st = Router.InitResolved st' ->
     Router.initialized (Router.this st') = true
     /\ Router.initOrThrow st' = Router.InitResolved st')
  /\ (forall st,
        reachableOrThrow options w0 st ->
        Router.initialized (Router.this st) = true ->
        Router.initOrThrow st = Router.InitResolved st
        /\ Window.navigateListeners (Router.window st)
           = 1 + Window.navigateListeners w0
        /\ Window.popstateListeners (Router.window st)
           = 1 + Window.popstateListeners w0
        /\ Router.patterns (Router.this st)
           = map entryOf (RouterOptions.routes options))
  /\ (forall st,
        reachableOrThrow options w0 st ->
        Router.initialized (Router.this st) = false ->
        Window.navigateListeners (Router.window st) = Window.navigateListeners w0
        /\ Window.popstateListeners (Router.window st)
           = Window.popstateListeners w0)
  /\ (forall st st',
        Router.initOrThrow st = Router.InitRejected st' ->
        Router.initialized (Router.this st') = false
        /\ Router.currentRoute (Router.this st') = Router.currentRoute (Router.this st)
        /\ Router.window st' = Router.window st
        /\ Router.log st' = Router.log st)
  /\ (allAccepted (RouterOptions.routes options) = true ->
      Router.initOrThrow (Router.construct options w0)
      = Router.InitResolved (Router.init (Router.construct options w0))).
Proof.
  split; [|split; [|split; [|split]]].
  - intros st st' H.
    assert (Hi : Router.initialized (Router.this st') = true).
    { destruct (Router.initialized (Router.this st)) eqn:Hi.
      - rewrite (initOrThrow_initialized st Hi) in H. now injection H as <-.
      - destruct (allAccepted (Router.routes (Router.this st))) eqn:Ha.
        + rewrite (initOrThrow_resolved st Hi Ha) in H. injection H as <-.
          apply init_initialized.
        + rewrite (initOrThrow_rejected st Hi Ha) in H. discriminate. }
    split; [exact Hi | now apply initOrThrow_initialized].
  - intros st Hr Hi.
    destruct (reachableOrThrow_initialized Hr) as (_ & Hn & Hp & Ht & _).
    rewrite Hi in Hn, Hp. auto using initOrThrow_initialized.
  - intros st Hr Hi.
    destruct (reachableOrThrow_initialized Hr) as (_ & Hn & Hp & _).
    rewrite Hi in Hn, Hp. auto.
  - intros st st' H.
    destruct (Router.initialized (Router.this st)) eqn:Hi.
    + rewrite (initOrThrow_initialized st Hi) in H. discriminate.
    + destruct (allAccepted (Router.routes (Router.this st))) eqn:Ha.
      * rewrite (initOrThrow_resolved st Hi Ha) in H. discriminate.
      * rewrite (initOrThrow_rejected st Hi Ha) in H. injection H as <-.
        simpl. auto.
  - intros Ha. now apply initOrThrow_resolved.
Qed.

(** ** Further properties of the listeners and of the handling run *)

(** What a handling run leaves as it was. *)
Lemma handleNavigation_preserves route (o : option Router.HandleOptions) st :
  let st' := Router.handleNavigation route o st in
  Router.routes (Router.this st') = Router.routes (Router.this st)
  /\ Router.patterns (Router.this st') = Router.patterns (Router.this st)
  /\ Router.initialized (Router.this st') = Router.initialized (Router.this st)
  /\ Router.plugins (Router.this st') = Router.plugins (Router.this st)
  /\ Window.location_origin (Router.window st')
     = Window.location_origin (Router.window st)
  /\ Window.location_pathname (Router.window st')
     = Window.location_pathname (Router.window st)
  /\ Window.navigateListeners (Router.window st')
     = Window.navigateListeners (Router.window st)
  /\ Window.popstateListeners (Router.window st')
     = Window.popstateListeners (Router.window st)
  /\ Window.navigateCalls (Router.window st')
     = Window.navigateCalls (Router.window st)
  /\ Window.currentEntryState (Router.window st')
     = Window.currentEntryState (Router.window st)
  /\ Window.startViewTransition (Router.window st')
     = Window.startViewTransition (Router.window st)
  /\ Window.document_title (Router.window st')
     = (if truthy_string (Route.title route)
        then Route.title route
        else Window.document_title (Router.window st))
  /\ (truthy_string (Window.document_title (Router.window st)) = true ->
      truthy_string (Window.document_title (Router.window st')) = true).
Proof.
  cbv zeta. destruct (handleNavigation_spec route o st) as (l & a & Heq & _).
  rewrite Heq. cbn [Router.this Router.window].
  destruct (truthy_string (Route.title route)) eqn:Ht,
    (transitionFailed o (Router.window st)); simpl; rewrite ?Ht; repeat split; auto.
Qed.

(** X5.  A handling run never touches the route list, the pattern table,
    the [initialized] flag, the global plugins, the location, the
    listeners, the recorded [navigate] calls, the navigation state or the
    view-transition capability (plugin hooks act on the application state
    only); the title afterwards is the route's title
    when that is not empty and the old title otherwise, so a run never
    blanks the title. *)
Theorem handleNavigation_frame route (o : option Router.HandleOptions) st :
  let st' := Router.handleNavigation route o st in
  Router.routes (Router.this st') = Router.routes (Router.this st)
  /\ Router.patterns (Router.this st') = Router.patterns (Router.this st)
  /\ Router.initialized (Router.this st') = Router.initialized (Router.this st)
  /\ Router.plugins (Router.this st') = Router.plugins (Router.this st)
  /\ Window.location_origin (Router.window st')
     = Window.location_origin (Router.window st)
  /\ Window.location_pathname (Router.window st')
     = Window.location_pathname (Router.window st)
  /\ Window.navigateListeners (Router.window st')
     = Window.navigateListeners (Router.window st)
  /\ Window.popstateListeners (Router.window st')
     = Window.popstateListeners (Router.window st)
  /\ Window.navigateCalls (Router.window st')
     = Window.navigateCalls (Router.window st)
  /\ Window.currentEntryState (Router.window st')
     = Window.currentEntryState (Router.window st)
  /\ Window.startViewTransition (Router.window st')
     = Window.startViewTransition (Router.window st)
  /\ Window.document_title (Router.window st')
     = (if truthy_string (Route.title route)
        then Route.title route
        else Window.document_title (Router.window st))
  /\ (truthy_string (Window.document_title (Router.window st)) = true ->
      truthy_string (Window.document_title (Router.window st')) = true).
Proof. apply handleNavigation_preserves. Qed.

(** X4.  However the view transition goes, the run ends with the route
    current.  [console.warn] is called exactly when a transition was
    requested and failed; [route-changed] is dispatched once, except that
    it is dispatched twice when the transition failed after its update
    callback had run.  With [skipViewTransition] the capability is not
    consulted at all: no warning, one [route-changed]. *)
Theorem handleNavigation_commit_outcomes route (o : option Router.HandleOptions) st :
  let st' := Router.handleNavigation route o st in
  Router.currentRoute (Router.this st') = Some route
  /\ Window.warnings (Router.window st')
     = (if transitionFailed o (Router.window st) then 1 else 0)
       + Window.warnings (Router.window st)
  /\ routeChanges (Router.log st')
     = routeChanges (Router.log st)
       ++ (if committedTwice o (Router.window st) then [route; route] else [route])
  /\ (Router.skips o = true ->
      Window.warnings (Router.window st') = Window.warnings (Router.window st)
      /\ routeChanges (Router.log st') = routeChanges (Router.log st) ++ [route]).
Proof.
  cbv zeta. destruct (handleNavigation_spec route o st) as (l & a & Heq & _ & _ & Hr & _).
  assert (Hw : Window.warnings (Router.window (Router.handleNavigation route o st))
               = (if transitionFailed o (Router.window st) then 1 else 0)
                 + Window.warnings (Router.window st)).
  { rewrite Heq. cbn [Router.window].
    destruct (truthy_string (Route.title route)),
      (transitionFailed o (Router.window st)); reflexivity. }
  assert (Hc : routeChanges (Router.log (Router.handleNavigation route o st))
               = routeChanges (Router.log st)
                 ++ (if committedTwice o (Router.window st)
                     then [route; route] else [route])).
  { rewrite Heq. cbn [Router.log]. rewrite !routeChanges_app, Hr.
    unfold commitLog. now destruct (committedTwice o (Router.window st)). }
  split; [now rewrite handleNavigation_this|]. split; [exact Hw|].
  split; [exact Hc|].
  intros Hs. rewrite Hw, Hc. unfold transitionFailed, committedTwice.
  rewrite Hs. auto.
Qed.

Lemma runPlugins_no_hooks route ps st :
  hooked ps = [] -> Router.runPlugins route ps st = st.
Proof.
  unfold hooked, Router.runPlugins. revert st.
  induction ps as [|p ps IH]; intros st; simpl; [reflexivity|].
  unfold hasHook at 1, Router.runPlugin at 2.
  destruct (RouterPlugin.beforeNavigation p); [discriminate | apply IH].
Qed.

(** X10.  When none of the plugins of the run defines [beforeNavigation]
    (no plugins at all included), the run calls nothing, reports nothing
    and leaves the application state alone: it only commits. *)
Theorem handleNavigation_without_hooks route (o : option Router.HandleOptions) st :
  hooked (Router.allPlugins (Router.this st) route) = [] ->
  let st' := Router.handleNavigation route o st in
  Router.log st' = Router.log st ++ commitLog route o (Router.window st)
  /\ Window.app (Router.window st') = Window.app (Router.window st)
  /\ errorEvents (Router.log st') = errorEvents (Router.log st).
Proof.
  intros Hh. cbv zeta. unfold Router.handleNavigation.
  rewrite (runPlugins_no_hooks route _ st Hh), commit_spec.
  unfold Router.updateTitle, commitLog, committedTwice, transitionFailed.
  destruct (truthy_string (Route.title route)); simpl;
    destruct (Router.skips o); simpl;
    destruct (Window.startViewTransition (Router.window st)) as [[|[|]]|]; simpl;
    rewrite ?errorEvents_app; simpl; rewrite ?app_nil_r; auto.
Qed.

(** X7.  A route guarded by [lazy(importFn)] alone, with no global plugin:
    the import is called on the application state as it is, settles, and
    is reported if it rejects, all before the commit; the route becomes
    current whether or not the import succeeded, and the application state
    is what the import left. *)
Theorem handleNavigation_lazy route (o : option Router.HandleOptions) st
  (importFn : World -> Settled Failure * World) :
  Router.plugins (Router.this st) = [] ->
  Route.plugins route = Some [lazy importFn] ->
  let out := importFn (Window.app (Router.window st)) in
  let st' := Router.handleNavigation route o st in
  Router.log st'
  = Router.log st
    ++ [HookStarted (lazy importFn); HookSettled (lazy importFn) (fst out)]
    ++ match fst out with
       | Fulfilled => []
       | Rejected error => [Dispatched (ErrorEvent error (lazy importFn) route)]
       end
    ++ commitLog route o (Router.window st)
  /\ Window.app (Router.window st') = snd out
  /\ Router.currentRoute (Router.this st') = Some route.
Proof.
  intros Hg Hp. cbv zeta. unfold Router.handleNavigation, Router.allPlugins.
  rewrite Hg, Hp. simpl app.
  change (Router.runPlugins route [lazy importFn] st)
    with (Router.runPlugin route st (lazy importFn)).
  rewrite runPlugin_spec. cbn [lazy RouterPlugin.beforeNavigation]. cbv zeta.
  rewrite commit_spec. unfold Router.updateTitle, commitLog, committedTwice,
    transitionFailed, hookBlock.
  destruct (importFn (Window.app (Router.window st))) as [[|error] a];
    destruct (truthy_string (Route.title route)); simpl;
    destruct (Router.skips o); simpl;
    destruct (Window.startViewTransition (Router.window st)) as [[|[|]]|]; simpl;
    rewrite <- ?app_assoc; simpl; auto.
Qed.

(** ** The pattern table, in general *)

Lemma matchEntries_sound (entries : list (URLPattern * RouteT)) (path : string) route :
  Router.matchEntries entries path = Some route ->
  exists pre pattern post,
    entries = pre ++ (pattern, route) :: post
    /\ URLPattern_test pattern path = true
    /\ (forall e, In e pre -> URLPattern_test (fst e) path = false).
Proof.
  induction entries as [|[q r'] entries IH]; simpl; [discriminate|].
  destruct (URLPattern_test q path) eqn:Hq.
  - intros [= <-]. exists [], q, entries. repeat split; auto. intros e [].
  - intros H. destruct (IH H) as (pre & pattern & post & -> & Ht & Hpre).
    exists ((q, r') :: pre), pattern, post. repeat split; auto.
    intros e [<- | He]; [exact Hq | now apply Hpre].
Qed.

Lemma matchEntries_none (entries : list (URLPattern * RouteT)) (path : string) :
  Router.matchEntries entries path = None <->
  (forall e, In e entries -> URLPattern_test (fst e) path = false).
Proof.
  induction entries as [|[q r'] entries IH]; simpl.
  - split; [intros _ e [] | reflexivity].
  - destruct (URLPattern_test q path) eqn:Hq.
    + split; [discriminate|]. intros H.
      pose proof (H (q, r') (or_introl eq_refl)) as Hf. simpl in Hf. congruence.
    + rewrite IH. split.
      * intros H e [<- | He]; [exact Hq | now apply H].
      * intros H e He. apply H. now right.
Qed.

(** X9.  On any table, whatever put the entries there: a route returned by
    [matchRoute] sits in the table behind a pattern that accepts the
    pathname, and no entry before it accepts the pathname; [null] is
    returned exactly when no pattern of the table accepts the pathname (an
    empty table included). *)
Theorem matchRoute_first_entry r (path : string) :
  (forall route,
     Router.matchRoute r path = Some route ->
     exists pre pattern post,
       Router.patterns r = pre ++ (pattern, route) :: post
       /\ URLPattern_test pattern path = true
       /\ (forall e, In e pre -> URLPattern_test (fst e) path = false))
  /\ (Router.matchRoute r path = null <->
      (forall e, In e (Router.patterns r) -> URLPattern_test (fst e) path = false)).
Proof.
  split.
  - intros route. apply matchEntries_sound.
  - apply matchEntries_none.
Qed.

(** ** The [navigate] listener *)

(** X1.  The exact condition under which the ['navigate'] listener calls
    [event.intercept]: same origin, a [downloadRequest] that is [null] or
    the empty string, no [formData], [canIntercept], and a route matching
    the destination pathname.  The arguments of the call are then always
    manual focus and scroll handling. *)
Theorem onNavigate_intercepts_exactly (event : NavigateEvent) st :
  (Router.onNavigate event st <> None <->
   origin (destination event) = Window.location_origin (Router.window st)
   /\ (downloadRequest event = None \/ downloadRequest event = Some EmptyString)
   /\ formData event = None
   /\ canIntercept event = true
   /\ Router.matchRoute (Router.this st) (pathname (destination event)) <> None)
  /\ (forall i, Router.onNavigate event st = Some i ->
                Router.focusReset i = "manual" /\ Router.scroll i = "manual").
Proof.
  split.
  - rewrite onNavigate_intercepts_iff.
    assert (Hd : truthy_nullable_string (downloadRequest event) = false <->
                 downloadRequest event = None
                 \/ downloadRequest event = Some EmptyString).
    { destruct (downloadRequest event) as [[|c s']|]; simpl; split;
        try discriminate; auto; intros [H | H]; discriminate. }
    rewrite Hd. reflexivity.
  - unfold Router.onNavigate. cbv zeta. intros i.
    destruct (negb _); [discriminate|]. destruct (_ || _); [discriminate|].
    destruct (negb _); [discriminate|].
    destruct (Router.matchRoute _ _); [|discriminate].
    intros [= <-]. auto.
Qed.

(** X2.  What a ['navigate'] event does to an initialised router.  An event
    the listener lets through and whose pathname matches makes the
    first-declared matching route current and ends with [route-changed]
    for it, whether or not that route was current already; one whose
    pathname matches no route, or that is cross-origin, a download with a
    file name, a form submission or not interceptable, leaves the router,
    the environment and the log exactly as they were (in particular the
    current route is not cleared). *)
Theorem deliverNavigate_outcome (options : Options) (w0 : Win) st
  (event : NavigateEvent) :
  reachable options w0 st ->
  Router.initialized (Router.this st) = true ->
  let st' := Router.deliverNavigate event st in
  let found := find (routeMatches (pathname (destination event)))
                 (RouterOptions.routes options) in
  (origin (destination event) = Window.location_origin (Router.window st) ->
   truthy_nullable_string (downloadRequest event) = false ->
   formData event = None ->
   canIntercept event = true ->
   match found with
   | Some route =>
       st' = Router.handleNavigation route None st
       /\ Router.getCurrentRoute (Router.this st') = Some route
       /\ exists earlier : list Obs,
            Router.log st' = earlier ++ [Dispatched (RouteChanged route)]
   | None => st' = st
   end)
  /\ (origin (destination event) <> Window.location_origin (Router.window st)
      \/ truthy_nullable_string (downloadRequest event) = true
      \/ formData event <> None
      \/ canIntercept event = false ->
      st' = st).
Proof.
  intros Hr Hi. cbv zeta.
  destruct (reachable_initialized Hr) as (_ & Hp & _). rewrite Hi in Hp.
  unfold Router.deliverNavigate, Router.onNavigate. cbv zeta. split.
  - intros Ho Hd Hf Hc. rewrite Ho, String.eqb_refl, Hd, Hf, Hc. simpl.
    unfold Router.matchRoute. rewrite Hp, matchEntries_entryOf.
    destruct (find _ _) as [route|]; [|reflexivity].
    cbn [Router.handler]. split; [reflexivity|].
    destruct (handleNavigation_ends_with_commit route None st) as (Hcur & Hl).
    split; assumption.
  - intros H.
    destruct (String.eqb_spec (origin (destination event))
                (Window.location_origin (Router.window st))) as [Ho|Ho];
      simpl; [|reflexivity].
    destruct (truthy_nullable_string (downloadRequest event)); simpl; [reflexivity|].
    destruct (formData event); simpl; [reflexivity|].
    destruct (canIntercept event); simpl; [|reflexivity].
    destruct H as [H | [H | [H | H]]]; try discriminate; contradiction.
Qed.

(** ** The [popstate] listener *)

Lemma differsFromCurrent_after route r :
  Router.differsFromCurrent route (Router.set_currentRoute (Some route) r) = false.
Proof.
  unfold Router.differsFromCurrent. simpl. now rewrite String.eqb_refl.
Qed.

Lemma onPopstate_after_handleNavigation route (o : option Router.HandleOptions) st :
  Router.matchRoute (Router.this st) (Window.location_pathname (Router.window st))
  = Some route ->
  Router.onPopstate (Router.handleNavigation route o st)
  = Router.handleNavigation route o st.
Proof.
  intros Hm. unfold Router.onPopstate.
  destruct (handleNavigation_preserves route o st) as (_ & Hp & _ & _ & _ & Hl & _).
  cbv zeta in Hp, Hl. unfold Router.matchRoute in *. rewrite Hp, Hl, Hm.
  now rewrite handleNavigation_this, differsFromCurrent_after.
Qed.

(** X3.  The ['popstate'] listener on an initialised router.  When the
    pathname matches no route it does nothing at all, so the current route
    is kept, not cleared.  When the first-declared route matching the
    pathname has the path of the current route, it does nothing either.
    Otherwise it starts the handling run of that route: the result is that
    run, after which the route is current and [route-changed] for it is
    the last entry of the log. *)
Theorem onPopstate_settles (options : Options) (w0 : Win) st :
  reachable options w0 st ->
  Router.initialized (Router.this st) = true ->
  let st' := Router.onPopstate st in
  match find (routeMatches (Window.location_pathname (Router.window st)))
          (RouterOptions.routes options) with
  | None => st' = st
  | Some route =>
      (option_map (@Route.path _ _ _) (Router.getCurrentRoute (Router.this st))
       = Some (Route.path route) ->
       st' = st)
      /\ (option_map (@Route.path _ _ _) (Router.getCurrentRoute (Router.this st))
          <> Some (Route.path route) ->
          st' = Router.handleNavigation route None st
          /\ Router.getCurrentRoute (Router.this st') = Some route
          /\ exists earlier : list Obs,
               Router.log st' = earlier ++ [Dispatched (RouteChanged route)])
  end.
Proof.
  intros Hr Hi. cbv zeta.
  destruct (reachable_initialized Hr) as (_ & Hp & _). rewrite Hi in Hp.
  unfold Router.onPopstate, Router.matchRoute. rewrite Hp, matchEntries_entryOf.
  destruct (find _ _) as [route|]; [|reflexivity].
  unfold Router.differsFromCurrent, Router.getCurrentRoute.
  destruct (Router.currentRoute (Router.this st)) as [c|]; simpl.
  - destruct (String.eqb_spec (Route.path route) (Route.path c)) as [He|He]; simpl.
    + split; [reflexivity|]. intros H. contradiction H. now rewrite He.
    + split; [intros [= H]; now contradiction He|]. intros _.
      split; [reflexivity|]. apply handleNavigation_ends_with_commit.
  - split; [discriminate|]. intros _.
    split; [reflexivity|]. apply handleNavigation_ends_with_commit.
Qed.

(** X11.  A [popstate] that arrives right after [init], the location
    unchanged, does nothing: the initial route is not handled a second
    time. *)
Theorem init_then_popstate (options : Options) w :
  Router.onPopstate (Router.init (Router.construct options w))
  = Router.init (Router.construct options w).
Proof.
  unfold Router.init. simpl Router.initialized. cbv iota.
  pose proof (initialize_currentRoute (Router.construct options w) eq_refl) as Hc.
  simpl Router.window in Hc. simpl Router.routes in Hc.
  assert (Hm : Router.matchRoute
                 (Router.this (Router.initialize (Router.construct options w)))
                 (Window.location_pathname
                    (Router.window (Router.initialize (Router.construct options w))))
               = find (routeMatches (Window.location_pathname w))
                   (RouterOptions.routes options)).
  { unfold Router.matchRoute. rewrite initialize_this, buildPatterns_spec. simpl.
    apply matchEntries_entryOf. }
  destruct (Router.currentRoute
              (Router.this (Router.initialize (Router.construct options w))))
    as [route|] eqn:Hcur.
  - apply onPopstate_after_handleNavigation. now rewrite Hm, <- Hc.
  - unfold Router.onPopstate. now rewrite Hm, <- Hc.
Qed.

(** ** [init] at a location no route matches *)

(** X8.  When no route matches the startup pathname, [init] still builds
    the table, registers both listeners and marks the router initialised,
    but runs no hook, dispatches nothing, and leaves the title and the
    application state alone; [getCurrentRoute()] and [render()] return
    [null]. *)
Theorem init_without_match (options : Options) w :
  find (routeMatches (Window.location_pathname w)) (RouterOptions.routes options)
  = None ->
  let st := Router.init (Router.construct options w) in
  Router.getCurrentRoute (Router.this st) = null
  /\ Router.render (Router.this st) = null
  /\ Router.log st = []
  /\ Router.initialized (Router.this st) = true
  /\ Router.patterns (Router.this st) = map entryOf (RouterOptions.routes options)
  /\ Router.window st
     = Router.add_popstate_listener (Router.add_navigate_listener w).
Proof.
  intros Hf. cbv zeta.
  pose proof (initialize_currentRoute (Router.construct options w) eq_refl) as Hc.
  simpl Router.window in Hc. simpl Router.routes in Hc. rewrite Hf in Hc.
  assert (E : Router.init (Router.construct options w)
              = Router.initialize (Router.construct options w)).
  { unfold Router.init. simpl Router.initialized. cbv iota. now rewrite Hc. }
  rewrite E. unfold Router.getCurrentRoute, Router.render. rewrite Hc.
  repeat split. rewrite initialize_this, buildPatterns_spec. reflexivity.
Qed.

End Properties.

(** * The scenarios, evaluated *)

#[local] Existing Instance Scenario.browser.
#[local] Existing Instance Scenario.patternSyntax.

(** With the routes of the test suite, [/user/123] is matched by the third
    route, the two before it not matching; and of two overlapping routes
    the first-declared one is returned. *)
Lemma matchRoute_first_declared_match_witness :
  Router.matchRoute
    (Router.this
       (Router.init
          (Router.construct (Scenario.options Scenario.createTestRoutes)
             (Scenario.windowAt "/" "" None))))
    "/user/123"
  = Some Scenario.user
  /\ Router.matchRoute
       (Router.this
          (Router.init
             (Router.construct (Scenario.options [Scenario.user; Scenario.me])
                (Scenario.windowAt "/" "" None))))
       "/user/me"
     = Some Scenario.user.
Proof.
  split.
  - apply (proj1 (proj2 (matchRoute_first_declared_match
                           (Scenario.options Scenario.createTestRoutes)
                           (Scenario.windowAt "/" "" None) "/user/123"))
             [Scenario.home; Scenario.about] Scenario.user [Scenario.comment]).
    + reflexivity.
    + reflexivity.
    + intros q [<-|[<-|[]]]; reflexivity.
  - apply (proj1 (proj2 (matchRoute_first_declared_match
                           (Scenario.options [Scenario.user; Scenario.me])
                           (Scenario.windowAt "/" "" None) "/user/me"))
             [] Scenario.user [Scenario.me]).
    + reflexivity.
    + reflexivity.
    + intros q [].
Defined.

(** Plugins A, B (failing) and C on the way to [/about]. *)
Lemma handleNavigation_reports_failure_and_goes_on_witness :
  exists before after tail : list (Observation string Scenario.World Scenario.Failure),
    Router.log
      (Router.handleNavigation Scenario.guarded None
         (Router.construct Scenario.pluginOptions
            (Scenario.windowAt "/" "Old" None)))
    = [] ++ before
      ++ [HookStarted Scenario.pluginB;
          HookSettled Scenario.pluginB (Rejected "B failed");
          Dispatched (ErrorEvent "B failed" Scenario.pluginB Scenario.guarded)]
      ++ after ++ tail ++ [Dispatched (RouteChanged Scenario.guarded)]
    /\ startedHooks before = hooked [Scenario.pluginA]
    /\ startedHooks after = hooked [Scenario.pluginC]
    /\ startedHooks tail = []
    /\ errorEvents
         (before
          ++ [HookStarted Scenario.pluginB;
              HookSettled Scenario.pluginB (Rejected "B failed");
              Dispatched (ErrorEvent "B failed" Scenario.pluginB Scenario.guarded)]
          ++ after ++ tail ++ [Dispatched (RouteChanged Scenario.guarded)])
       = rejections Scenario.guarded
           (before
            ++ [HookStarted Scenario.pluginB;
                HookSettled Scenario.pluginB (Rejected "B failed");
                Dispatched (ErrorEvent "B failed" Scenario.pluginB Scenario.guarded)]
            ++ after ++ tail ++ [Dispatched (RouteChanged Scenario.guarded)])
    /\ Router.currentRoute
         (Router.this
            (Router.handleNavigation Scenario.guarded None
               (Router.construct Scenario.pluginOptions
                  (Scenario.windowAt "/" "Old" None))))
       = Some Scenario.guarded.
Proof.
  apply (handleNavigation_reports_failure_and_goes_on
           Scenario.guarded None
           (Router.construct Scenario.pluginOptions (Scenario.windowAt "/" "Old" None))
           [Scenario.pluginA] Scenario.pluginB [Scenario.pluginC]
           (hook := fun a => (Rejected "B failed", a))
           (error := "B failed") (a := ["A ran"]));
    reflexivity.
Defined.

Lemma handleNavigation_plugins_in_order_witness :
  Router.log
    (Router.handleNavigation Scenario.guarded None
       (Router.construct Scenario.pluginOptions (Scenario.windowAt "/" "Old" None)))
  = [HookStarted Scenario.pluginA; HookSettled Scenario.pluginA Fulfilled;
     HookStarted Scenario.pluginB;
     HookSettled Scenario.pluginB (Rejected "B failed");
     Dispatched (ErrorEvent "B failed" Scenario.pluginB Scenario.guarded);
     HookStarted Scenario.pluginC; HookSettled Scenario.pluginC Fulfilled;
     Dispatched (RouteChanged Scenario.guarded)]
  /\ Window.app
       (Router.window
          (Router.handleNavigation Scenario.guarded None
             (Router.construct Scenario.pluginOptions
                (Scenario.windowAt "/" "Old" None))))
     = ["A ran"; "C ran"].
Proof.
  split.
  - exact (proj1 (handleNavigation_plugins_in_order Scenario.guarded None
                    (Router.construct Scenario.pluginOptions
                       (Scenario.windowAt "/" "Old" None)))).
  - exact (proj1 (proj2 (handleNavigation_plugins_in_order Scenario.guarded None
                           (Router.construct Scenario.pluginOptions
                              (Scenario.windowAt "/" "Old" None))))).
Defined.

(** C4, the claim as stated fails: a matched route with an empty title
    leaves the document title as it was, so after [init] the title is not
    the route's. *)
Lemma init_title_counterexample :
  find (routeMatches "/") [Scenario.untitled] = Some Scenario.untitled
  /\ routeChanges
       (Router.log
          (Router.init
             (Router.construct (Scenario.options [Scenario.untitled])
                (Scenario.windowAt "/" "Old" None))))
     = [Scenario.untitled]
  /\ Window.document_title
       (Router.window
          (Router.init
             (Router.construct (Scenario.options [Scenario.untitled])
                (Scenario.windowAt "/" "Old" None))))
     = "Old"
  /\ "Old" <> Route.title Scenario.untitled.
Proof. repeat split. discriminate. Qed.

(** The case the amended C4 leaves out: a transition that fails after its
    update callback has run makes the [catch] run [updateDOM] a second
    time, and [route-changed] is dispatched twice. *)
Lemma failed_transition_dispatches_twice :
  routeChanges
    (Router.log
       (Router.init
          (Router.construct (Scenario.options Scenario.createTestRoutes)
             (Scenario.windowAt "/" "Old" (Some (TransitionFailed true))))))
  = [Scenario.home; Scenario.home].
Proof. reflexivity. Qed.

Lemma init_first_navigation_witness :
  routeChanges
    (Router.log
       (Router.init
          (Router.construct (Scenario.options Scenario.createTestRoutes)
             (Scenario.windowAt "/" "Old" (Some TransitionFinished)))))
  = [Scenario.home]
  /\ Router.getCurrentRoute
       (Router.this
          (Router.init
             (Router.construct (Scenario.options Scenario.createTestRoutes)
                (Scenario.windowAt "/" "Old" (Some TransitionFinished)))))
     = Some Scenario.home
  /\ Window.document_title
       (Router.window
          (Router.init
             (Router.construct (Scenario.options Scenario.createTestRoutes)
                (Scenario.windowAt "/" "Old" (Some TransitionFinished)))))
     = "Home".
Proof.
  apply (init_first_navigation
           (Scenario.options Scenario.createTestRoutes)
           (Scenario.windowAt "/" "Old" (Some TransitionFinished))
           (route := Scenario.home)).
  - reflexivity.
  - discriminate.
Defined.

(** Two calls of [init] on the routes of the test suite. *)
Lemma init_runs_once_witness :
  let st :=
    Router.init
      (Router.init
         (Router.construct (Scenario.options Scenario.createTestRoutes)
            (Scenario.windowAt "/" "Old" None))) in
  Router.init st = st
  /\ Window.navigateListeners (Router.window st) = 1 + 0
  /\ Window.popstateListeners (Router.window st) = 1 + 0
  /\ Router.patterns (Router.this st) = map entryOf Scenario.createTestRoutes.
Proof.
  apply (proj1 (proj2 (proj2 (init_runs_once
                                (Scenario.options Scenario.createTestRoutes)
                                (Scenario.windowAt "/" "Old" None))))).
  - exact (reach_perform CallInit
             (reach_perform CallInit (reach_construct _ _))).
  - reflexivity.
Defined.

(** C5, the claim as stated fails: with a route whose path is not a
    pattern, the first call of [init] is rejected after the first route
    has been entered in the table; the router is not initialised and has
    registered no listener; and a second call is no no-op: it runs the
    body again, entering the first route a second time. *)
Lemma init_reruns_after_throw :
  Router.initOrThrow
    (Router.construct (Scenario.options [Scenario.home; Scenario.broken])
       (Scenario.windowAt "/" "Old" None))
  = Router.InitRejected
      (Router.stateOf
         (Router.initOrThrow
            (Router.construct (Scenario.options [Scenario.home; Scenario.broken])
               (Scenario.windowAt "/" "Old" None))))
  /\ Router.initialized
       (Router.this
          (Router.stateOf
             (Router.initOrThrow
                (Router.construct (Scenario.options [Scenario.home; Scenario.broken])
                   (Scenario.windowAt "/" "Old" None)))))
     = false
  /\ Window.navigateListeners
       (Router.window
          (Router.stateOf
             (Router.initOrThrow
                (Router.construct (Scenario.options [Scenario.home; Scenario.broken])
                   (Scenario.windowAt "/" "Old" None)))))
     = 0
  /\ Router.patterns
       (Router.this
          (Router.stateOf
             (Router.initOrThrow
                (Router.construct (Scenario.options [Scenario.home; Scenario.broken])
                   (Scenario.windowAt "/" "Old" None)))))
     = [entryOf Scenario.home]
  /\ Router.patterns
       (Router.this
          (Router.stateOf
             (Router.initOrThrow
                (Router.stateOf
                   (Router.initOrThrow
                      (Router.construct
                         (Scenario.options [Scenario.home; Scenario.broken])
                         (Scenario.windowAt "/" "Old" None)))))))
     = [entryOf Scenario.home; entryOf Scenario.home].
Proof. repeat split. Qed.

(** Two calls of [init] on the routes of the test suite, all of whose
    paths are patterns. *)
Lemma init_completes_once_witness :
  let st :=
    performOrThrow CallInit
      (performOrThrow CallInit
         (Router.construct (Scenario.options Scenario.createTestRoutes)
            (Scenario.windowAt "/" "Old" None))) in
  Router.initOrThrow st = Router.InitResolved st
  /\ Window.navigateListeners (Router.window st) = 1 + 0
  /\ Window.popstateListeners (Router.window st) = 1 + 0
  /\ Router.patterns (Router.this st) = map entryOf Scenario.createTestRoutes.
Proof.
  apply (proj1 (proj2 (init_completes_once
                         (Scenario.options Scenario.createTestRoutes)
                         (Scenario.windowAt "/" "Old" None)))).
  - exact (reachT_perform CallInit
             (reachT_perform CallInit (reachT_construct _ _))).
  - reflexivity.
Defined.

(** C6, the failing input: a same-origin, interceptable click on a
    download link without a file name, to a path that matches a route.
    [downloadRequest] is the empty string, which is falsy, so the listener
    does not return early and claims the navigation, where the same click
    on a link that names its file is left to the browser. *)
Theorem onNavigate_intercepts_unnamed_download :
  Router.onNavigate (Scenario.namedDownload "/about")
    (Router.init
       (Router.construct (Scenario.options Scenario.createTestRoutes)
          (Scenario.windowAt "/" "Old" None)))
  = None
  /\ downloadRequest (Scenario.unnamedDownload "/about") = Some ""
  /\ option_map (@Router.focusReset _ _ _ _)
       (Router.onNavigate (Scenario.unnamedDownload "/about")
          (Router.init
             (Router.construct (Scenario.options Scenario.createTestRoutes)
                (Scenario.windowAt "/" "Old" None))))
     = Some "manual"
  /\ Router.getCurrentRoute
       (Router.this
          (Router.deliverNavigate (Scenario.unnamedDownload "/about")
             (Router.init
                (Router.construct (Scenario.options Scenario.createTestRoutes)
                   (Scenario.windowAt "/" "Old" None)))))
     = Some Scenario.about.
Proof. repeat split. Qed.

(** C7, the claim as stated fails: [init] assigns the current route
    before it starts the handling sequence.  The sequence for [/about]
    starts in a state where [getCurrentRoute()] already returns the route
    although nothing has been dispatched and no commit has run. *)
Lemma init_assigns_currentRoute_before_commit :
  Router.getCurrentRoute
    (Router.this
       (Router.construct (Scenario.options Scenario.createTestRoutes)
          (Scenario.windowAt "/about" "Old" None)))
  = None
  /\ Router.init
       (Router.construct (Scenario.options Scenario.createTestRoutes)
          (Scenario.windowAt "/about" "Old" None))
     = Router.handleNavigation Scenario.about None
         (Router.initialize
            (Router.construct (Scenario.options Scenario.createTestRoutes)
               (Scenario.windowAt "/about" "Old" None)))
  /\ Router.getCurrentRoute
       (Router.this
          (Router.initialize
             (Router.construct (Scenario.options Scenario.createTestRoutes)
                (Scenario.windowAt "/about" "Old" None))))
     = Some Scenario.about
  /\ Router.log
       (Router.initialize
          (Router.construct (Scenario.options Scenario.createTestRoutes)
             (Scenario.windowAt "/about" "Old" None)))
     = [].
Proof. repeat split. Qed.

Lemma currentRoute_invariant_witness :
  In Scenario.about (RouterOptions.routes (Scenario.options Scenario.createTestRoutes)).
Proof.
  apply (proj1 (currentRoute_invariant
                  (Scenario.options Scenario.createTestRoutes)
                  (Scenario.windowAt "/about" "Old" None))
           (Router.init
              (Router.construct (Scenario.options Scenario.createTestRoutes)
                 (Scenario.windowAt "/about" "Old" None)))
           Scenario.about).
  - exact (reach_perform CallInit (reach_construct _ _)).
  - reflexivity.
Defined.

(** C8, the claim as stated fails: a current route whose render function
    returns [null] makes [render()] return [null] while
    [getCurrentRoute()] does not. *)
Lemma render_null_counterexample :
  Router.render
    (Router.this
       (Router.init
          (Router.construct (Scenario.options [Scenario.blank])
             (Scenario.windowAt "/" "Old" None))))
  = null
  /\ Router.getCurrentRoute
       (Router.this
          (Router.init
             (Router.construct (Scenario.options [Scenario.blank])
                (Scenario.windowAt "/" "Old" None))))
     = Some Scenario.blank
  /\ Some Scenario.blank <> null.
Proof. repeat split. discriminate. Qed.

Lemma render_absent_iff_witness :
  Router.render
    (Router.this
       (Router.init
          (Router.construct (Scenario.options Scenario.createTestRoutes)
             (Scenario.windowAt "/about" "Old" None))))
  = Some "<div>About</div>".
Proof.
  apply (proj2 (render_absent_iff
                  (Router.this
                     (Router.init
                        (Router.construct (Scenario.options Scenario.createTestRoutes)
                           (Scenario.windowAt "/about" "Old" None)))))
           Scenario.about).
  reflexivity.
Defined.

(** [navigate('/about')] and [navigate(new URL('/about', origin))]. *)
Lemma navigate_string_as_URL_witness :
  let st :=
    Router.init
      (Router.construct (Scenario.options Scenario.createTestRoutes)
         (Scenario.windowAt "/" "Old" None)) in
  let u := mkURL "http://localhost/about" "http://localhost" "/about" in
  let call := mkNavigateCall "http://localhost/about" push true (@None unit) in
  Router.navigate (Router.PathString "/about") None st
  = Router.navigate (Router.PathURL u) None st
  /\ fst (Router.navigate (Router.PathString "/about") None st)
     = Router.AwaitedFinished Fulfilled
  /\ Window.navigateCalls
       (Router.window (snd (Router.navigate (Router.PathString "/about") None st)))
     = [] ++ [call]
  /\ Router.this (snd (Router.navigate (Router.PathString "/about") None st))
     = Router.this st.
Proof.
  exact (navigate_string_as_URL "/about"
           (u := mkURL "http://localhost/about" "http://localhost" "/about")
           None
           (Router.init
              (Router.construct (Scenario.options Scenario.createTestRoutes)
                 (Scenario.windowAt "/" "Old" None)))
           eq_refl).
Defined.

(** Before [init], an event that would otherwise be intercepted finds an
    empty table and changes nothing. *)
Lemma construct_only_stores_configuration_witness :
  Router.render
    (Router.this
       (Router.deliverNavigate
          (mkNavigateEvent
             (mkURL "http://localhost/about" "http://localhost" "/about")
             None None true)
          (Router.construct (Scenario.options Scenario.createTestRoutes)
             (Scenario.windowAt "/" "Old" None))))
  = null.
Proof.
  apply (proj2 (construct_only_stores_configuration
                  (Scenario.options Scenario.createTestRoutes)
                  (Scenario.windowAt "/" "Old" None))).
  - exact (reach_perform
             (NavigateEventFired
                (mkNavigateEvent
                   (mkURL "http://localhost/about" "http://localhost" "/about")
                   None None true))
             (reach_construct _ _)).
  - reflexivity.
Defined.

(** ** The further properties, evaluated *)

(** X10: the home route has no plugins and none are global. *)
Lemma handleNavigation_without_hooks_witness :
  Router.log
    (Router.handleNavigation Scenario.home None
       (Router.construct (Scenario.options Scenario.createTestRoutes)
          (Scenario.windowAt "/" "Old" None)))
  = [Dispatched (RouteChanged Scenario.home)]
  /\ Window.app
       (Router.window
          (Router.handleNavigation Scenario.home None
             (Router.construct (Scenario.options Scenario.createTestRoutes)
                (Scenario.windowAt "/" "Old" None))))
     = []
  /\ errorEvents
       (Router.log
          (Router.handleNavigation Scenario.home None
             (Router.construct (Scenario.options Scenario.createTestRoutes)
                (Scenario.windowAt "/" "Old" None))))
     = [].
Proof.
  exact (handleNavigation_without_hooks Scenario.home None
           (Router.construct (Scenario.options Scenario.createTestRoutes)
              (Scenario.windowAt "/" "Old" None))
           eq_refl).
Defined.

(** X7: a lazy page whose import fails still becomes current, after one
    [error] event. *)
Lemma handleNavigation_lazy_witness :
  routeChanges
    (Router.log
       (Router.handleNavigation Scenario.brokenLazyAbout None
          (Router.construct (Scenario.options [Scenario.home; Scenario.brokenLazyAbout])
             (Scenario.windowAt "/" "Old" None))))
  = [Scenario.brokenLazyAbout]
  /\ Router.currentRoute
       (Router.this
          (Router.handleNavigation Scenario.brokenLazyAbout None
             (Router.construct
                (Scenario.options [Scenario.home; Scenario.brokenLazyAbout])
                (Scenario.windowAt "/" "Old" None))))
     = Some Scenario.brokenLazyAbout.
Proof.
  split.
  - rewrite (proj1 (handleNavigation_lazy Scenario.brokenLazyAbout None
                      (Router.construct
                         (Scenario.options [Scenario.home; Scenario.brokenLazyAbout])
                         (Scenario.windowAt "/" "Old" None))
                      (importFn := fun a => (Rejected "import failed", a))
                      eq_refl eq_refl)).
    reflexivity.
  - exact (proj2 (proj2 (handleNavigation_lazy Scenario.brokenLazyAbout None
                           (Router.construct
                              (Scenario.options [Scenario.home; Scenario.brokenLazyAbout])
                              (Scenario.windowAt "/" "Old" None))
                           (importFn := fun a => (Rejected "import failed", a))
                           eq_refl eq_refl))).
Defined.

(** X2: a click on a link to [/user/7] after [init] at [/]. *)
Lemma deliverNavigate_outcome_witness :
  Router.getCurrentRoute
    (Router.this
       (Router.deliverNavigate
          (mkNavigateEvent
             (mkURL "http://localhost/user/7" "http://localhost" "/user/7")
             None None true)
          (Router.init
             (Router.construct (Scenario.options Scenario.createTestRoutes)
                (Scenario.windowAt "/" "Old" None)))))
  = Some Scenario.user.
Proof.
  exact (proj1 (proj2 (proj1 (deliverNavigate_outcome
                                (mkNavigateEvent
                                   (mkURL "http://localhost/user/7"
                                      "http://localhost" "/user/7")
                                   None None true)
                                (reach_perform CallInit
                                   (reach_construct
                                      (Scenario.options Scenario.createTestRoutes)
                                      (Scenario.windowAt "/" "Old" None)))
                                eq_refl)
                         eq_refl eq_refl eq_refl eq_refl))).
Defined.

(** X8: [init] at [/nonexistent]. *)
Lemma init_without_match_witness :
  Router.render
    (Router.this
       (Router.init
          (Router.construct (Scenario.options Scenario.createTestRoutes)
             (Scenario.windowAt "/nonexistent" "Old" None))))
  = null
  /\ Router.log
       (Router.init
          (Router.construct (Scenario.options Scenario.createTestRoutes)
             (Scenario.windowAt "/nonexistent" "Old" None)))
     = [].
Proof.
  split.
  - exact (proj1 (proj2 (init_without_match
                           (Scenario.options Scenario.createTestRoutes)
                           (Scenario.windowAt "/nonexistent" "Old" None) eq_refl))).
  - exact (proj1 (proj2 (proj2 (init_without_match
                                  (Scenario.options Scenario.createTestRoutes)
                                  (Scenario.windowAt "/nonexistent" "Old" None)
                                  eq_refl)))).
Defined.

(** X3: after [init] at [/about] the user goes back to [/user/7]; the
    ['popstate'] listener runs the handling sequence of the user route. *)
Lemma onPopstate_settles_witness :
  Router.onPopstate
    (Router.mkState
       (Router.this
          (Router.init
             (Router.construct (Scenario.options Scenario.createTestRoutes)
                (Scenario.windowAt "/about" "Old" None))))
       (Scenario.relocated "/user/7"
          (Router.window
             (Router.init
                (Router.construct (Scenario.options Scenario.createTestRoutes)
                   (Scenario.windowAt "/about" "Old" None)))))
       (Router.log
          (Router.init
             (Router.construct (Scenario.options Scenario.createTestRoutes)
                (Scenario.windowAt "/about" "Old" None)))))
  = Router.handleNavigation Scenario.user None
      (Router.mkState
         (Router.this
            (Router.init
               (Router.construct (Scenario.options Scenario.createTestRoutes)
                  (Scenario.windowAt "/about" "Old" None))))
         (Scenario.relocated "/user/7"
            (Router.window
               (Router.init
                  (Router.construct (Scenario.options Scenario.createTestRoutes)
                     (Scenario.windowAt "/about" "Old" None)))))
         (Router.log
            (Router.init
               (Router.construct (Scenario.options Scenario.createTestRoutes)
                  (Scenario.windowAt "/about" "Old" None))))).
Proof.
  pose proof (onPopstate_settles
                (reach_environment
                   (Scenario.relocated "/user/7"
                      (Router.window
                         (Router.init
                            (Router.construct
                               (Scenario.options Scenario.createTestRoutes)
                               (Scenario.windowAt "/about" "Old" None)))))
                   (reach_perform CallInit
                      (reach_construct (Scenario.options Scenario.createTestRoutes)
                         (Scenario.windowAt "/about" "Old" None)))
                   eq_refl eq_refl)
                eq_refl) as H.
  apply (proj2 H). discriminate.
Defined.
